(** * Stage-in script ([pilot/scripts/stagein.py]): list reconciliation,
    descriptor building, dispatch, result aggregation and exit policy.

    The development is a shallow embedding of the Python script.  Python
    values that flow through the pipeline are embedded in [pyval]; code that
    may raise runs in an error monad ([result]); code that also logs or
    writes the report runs in a state-and-error monad ([M]) over a [World]
    made of the log and the files written so far.

    Strings are sequences of 8-bit code points.  Log lines are kept as
    structured events (constructor per [message(...)] call site) instead of
    their formatted text.  Argument parsing, logging set-up, the trace report
    and the info service are collaborators outside the script's own logic and
    leave no trace in the modelled state. *)

From Stdlib Require Import ZArith List String Ascii Bool Arith Lia.
Import ListNotations.

Open Scope string_scope.
Open Scope list_scope.

(* ================================================================== *)
(** ** Python values, exceptions, the error monad *)

Inductive pyval : Type :=
| PyNone
| PyBool (b : bool)
| PyInt (z : Z)
| PyStr (s : string).

(** Python's [==] on the values above ([True == 1] and [False == 0] hold,
    a string is equal to strings only). *)
Definition py_eqb (a b : pyval) : bool :=
  match a, b with
  | PyNone, PyNone => true
  | PyBool x, PyBool y => Bool.eqb x y
  | PyInt x, PyInt y => Z.eqb x y
  | PyBool x, PyInt y => Z.eqb (if x then 1 else 0) y
  | PyInt x, PyBool y => Z.eqb x (if y then 1 else 0)
  | PyStr x, PyStr y => String.eqb x y
  | _, _ => false
  end.

(** Truth value of a Python value, as tested by [if v:]. *)
Definition truthy (v : pyval) : bool :=
  match v with
  | PyNone => false
  | PyBool b => b
  | PyInt z => negb (Z.eqb z 0)
  | PyStr s => negb (String.eqb s "")
  end.

Inductive exn : Type :=
| AttributeError (what : string)
| ValueError (what : string)
| IndexError (what : string)
| TransferFailure (msg : string)   (* what the backend raises; [str(e) = msg] *)
| SystemExit (code : Z).            (* raised by [exit(code)] *)

(** [except Exception] catches everything but [SystemExit]. *)
Definition is_Exception (e : exn) : bool :=
  match e with
  | SystemExit _ => false
  | _ => true
  end.

(** [str(e)] *)
Definition str_of_exn (e : exn) : string :=
  match e with
  | AttributeError w => w
  | ValueError w => w
  | IndexError w => w
  | TransferFailure m => m
  | SystemExit _ => ""
  end.

Inductive result (A : Type) : Type :=
| Ok (a : A)
| Raise (e : exn).
Arguments Ok {A} a.
Arguments Raise {A} e.

Module Res.
Definition bind {A B} (r : result A) (k : A -> result B) : result B :=
  match r with
  | Ok a => k a
  | Raise e => Raise e
  end.

(** [try: body  except Exception: handler] *)
Definition try_except {A} (body : result A) (handler : exn -> result A)
  : result A :=
  match body with
  | Ok a => Ok a
  | Raise e => if is_Exception e then handler e else Raise e
  end.
End Res.

Declare Scope res_scope.
Delimit Scope res_scope with res.
Notation "x <- c ;; k" := (Res.bind c (fun x => k))
  (at level 61, c at next level, right associativity) : res_scope.

(* ================================================================== *)
(** ** String primitives of the Python runtime used by the script *)

Definition is_digit (c : ascii) : bool :=
  let n := nat_of_ascii c in (48 <=? n)%nat && (n <=? 57)%nat.

Definition digit_val (c : ascii) : Z := Z.of_nat (nat_of_ascii c - 48).

(** [str.isspace] on the code points below 256. *)
Definition is_space (c : ascii) : bool :=
  let n := nat_of_ascii c in
  ((9 <=? n)%nat && (n <=? 13)%nat) || ((28 <=? n)%nat && (n <=? 32)%nat)
  || (n =? 133)%nat || (n =? 160)%nat.

(** The blanks [int()] skips around a number: the code points 28..31 are
    not among them. *)
Definition is_int_space (c : ascii) : bool :=
  let n := nat_of_ascii c in
  ((9 <=? n)%nat && (n <=? 13)%nat) || (n =? 32)%nat
  || (n =? 133)%nat || (n =? 160)%nat.

Fixpoint lstrip_with (sp : ascii -> bool) (s : string) : string :=
  match s with
  | EmptyString => EmptyString
  | String c s' => if sp c then lstrip_with sp s' else s
  end.

Fixpoint rstrip_with (sp : ascii -> bool) (s : string) : string :=
  match s with
  | EmptyString => EmptyString
  | String c s' =>
      let r := rstrip_with sp s' in
      if sp c && String.eqb r "" then EmptyString else String c r
  end.

Definition strip_with (sp : ascii -> bool) (s : string) : string :=
  rstrip_with sp (lstrip_with sp s).

(** [s.strip()] *)
Definition strip (s : string) : string := strip_with is_space s.

(** Digits of a decimal literal, single underscores allowed between digits.
    [prev_us] tells that a digit is required next (start of the literal or
    after an underscore). *)
Fixpoint int_digits (acc : Z) (prev_us : bool) (s : string) : option Z :=
  match s with
  | EmptyString => if prev_us then None else Some acc
  | String c s' =>
      if is_digit c then int_digits (10 * acc + digit_val c) false s'
      else if Ascii.eqb c "_" && negb prev_us then int_digits acc true s'
      else None
  end.

(** [int(x)] for a string [x] in base 10: blanks around the literal are
    skipped, one sign is accepted, anything else raises [ValueError]. *)
Definition py_int (x : string) : result Z :=
  let t := strip_with is_int_space x in
  let parsed :=
    match t with
    | String "+" r => int_digits 0 true r
    | String "-" r => option_map Z.opp (int_digits 0 true r)
    | _ => int_digits 0 true t
    end in
  match parsed with
  | Some n => Ok n
  | None => Raise (ValueError "invalid literal for int() with base 10")
  end.

(** [s.split(',')]: one more piece than there are commas. *)
Fixpoint split_comma (s : string) : list string :=
  match s with
  | EmptyString => [EmptyString]
  | String c s' =>
      if Ascii.eqb c "," then EmptyString :: split_comma s'
      else match split_comma s' with
           | h :: t => String c h :: t
           | [] => [String c EmptyString]
           end
  end.

(** [x.split(',')] where [x] may be [None]: [None] has no [split]. *)
Definition split (x : option string) : result (list string) :=
  match x with
  | Some s => Ok (split_comma s)
  | None => Raise (AttributeError "'NoneType' object has no attribute 'split'")
  end.

(** Does [p] start [s]?  Returns what follows. *)
Fixpoint strip_prefix (p s : string) : option string :=
  match p with
  | EmptyString => Some s
  | String a p' =>
      match s with
      | EmptyString => None
      | String b s' => if Ascii.eqb a b then strip_prefix p' s' else None
      end
  end.

(** [old in s] *)
Fixpoint contains (old s : string) : bool :=
  match strip_prefix old s with
  | Some _ => true
  | None =>
      match s with
      | EmptyString => false
      | String _ s' => contains old s'
      end
  end.

(** [s.replace(old, '')] for a non-empty [old]: occurrences are removed left
    to right, without overlap.  [skip] counts the characters of a matched
    occurrence that remain to be dropped. *)
Fixpoint remove_all_from (old : string) (skip : nat) (s : string) : string :=
  match s with
  | EmptyString => EmptyString
  | String c s' =>
      match skip with
      | S k => remove_all_from old k s'
      | O =>
          match strip_prefix old s with
          | Some _ => remove_all_from old (String.length old - 1) s'
          | None => String c (remove_all_from old 0 s')
          end
      end
  end.

Definition remove_all (old s : string) : string := remove_all_from old 0 s.

Fixpoint take_while (p : ascii -> bool) (s : string) : string :=
  match s with
  | EmptyString => EmptyString
  | String c s' => if p c then String c (take_while p s') else EmptyString
  end.

(* ================================================================== *)
(** ** Element coercions of the list reconciler *)

(** [str_to_int_list]: the loop appends to [_new_list]. *)
Fixpoint str_to_int_list_loop (_list : list string) (_new_list : list pyval)
  : result (list pyval) :=
  match _list with
  | [] => Ok _new_list
  | x :: rest =>
      (_x <- Res.try_except
               (n <- py_int x ;; Ok (PyInt n))
               (fun _ => Ok PyNone) ;;
       str_to_int_list_loop rest (_new_list ++ [_x]))%res
  end.

Definition str_to_int_list (_list : list string) : result (list pyval) :=
  str_to_int_list_loop _list [].

(** [dict.get(key, default)] on a dictionary kept in insertion order. *)
Fixpoint dict_get_default {V} (d : list (pyval * V)) (key : pyval) (default : V)
  : V :=
  match d with
  | [] => default
  | (k, v) :: d' => if py_eqb k key then v else dict_get_default d' key default
  end.

Definition changes : list (pyval * pyval) :=
  [ (PyStr "True", PyBool true); (PyStr "False", PyBool false);
    (PyStr "None", PyNone); (PyStr "NULL", PyNone) ].

Definition str_to_bool_list (_list : list pyval) : list pyval :=
  map (fun x => dict_get_default changes x x) _list.

(* ================================================================== *)
(** ** Error extractor *)

(** Match object of [re.search]: group 0 is the whole match. *)
Record match_obj : Type := mkMatch { groups : list string }.

(** [m.group(i)] *)
Definition group (m : match_obj) (i : nat) : result string :=
  match nth_error (groups m) i with
  | Some g => Ok g
  | None => Raise (IndexError "no such group")
  end.

(** The two patterns of the script have the shape [lit(C+)]: a literal text
    followed by one capture group of one or more characters of a class [C],
    as many as possible.  [match_here] tries the pattern at the start of [s]. *)
Definition match_here (lit : string) (cls : ascii -> bool) (s : string)
  : option match_obj :=
  match strip_prefix lit s with
  | Some rest =>
      let g := take_while cls rest in
      if String.eqb g "" then None else Some (mkMatch [(lit ++ g)%string; g])
  | None => None
  end.

(** [re.search]: the leftmost position where the pattern matches. *)
Fixpoint re_search (lit : string) (cls : ascii -> bool) (s : string)
  : option match_obj :=
  match match_here lit cls s with
  | Some m => Some m
  | None =>
      match s with
      | EmptyString => None
      | String _ s' => re_search lit cls s'
      end
  end.

(** [.] of a regular expression: anything but a line feed. *)
Definition not_newline (c : ascii) : bool := negb (Ascii.eqb c "010").

Definition extract_error_info (err : string) : result (pyval * string) :=
  (let error_code := PyInt 0 in
   let error_message := "" in
   let _code := re_search "error code: " is_digit err in
   error_code <- match _code with
                 | Some m => g <- group m 1 ;; Ok (PyStr g)
                 | None => Ok error_code
                 end ;;
   let _msg := re_search "details: " not_newline err in
   error_message <- match _msg with
                    | Some m =>
                        error_message <- group m 1 ;;
                        Ok (strip (remove_all "[PilotException(" error_message))
                    | None => Ok error_message
                    end ;;
   Ok (error_code, error_message))%res.

(* ================================================================== *)
(** ** State-and-error monad *)

Definition SE (S A : Type) : Type := S -> result A * S.

Module St.
Definition ret {S A} (a : A) : SE S A := fun s => (Ok a, s).

Definition bind {S A B} (c : SE S A) (k : A -> SE S B) : SE S B :=
  fun s =>
    match c s with
    | (Ok a, s') => k a s'
    | (Raise e, s') => (Raise e, s')
    end.

Definition raise {S A} (e : exn) : SE S A := fun s => (Raise e, s).

Definition lift {S A} (r : result A) : SE S A := fun s => (r, s).

Definition modify {S} (f : S -> S) : SE S unit := fun s => (Ok tt, f s).

(** [try: body  except Exception as e: handler e]; what the body did to
    the state before it raised stays done. *)
Definition try_except {S A} (body : SE S A) (handler : exn -> SE S A)
  : SE S A :=
  fun s =>
    match body s with
    | (Ok a, s') => (Ok a, s')
    | (Raise e, s') => if is_Exception e then handler e s' else (Raise e, s')
    end.

(** Run a computation on the first or on the second half of a state. *)
Definition on_fst {S T A} (c : SE S A) : SE (S * T) A :=
  fun st => let '(r, s') := c (fst st) in (r, (s', snd st)).

Definition on_snd {S T A} (c : SE T A) : SE (S * T) A :=
  fun st => let '(r, t') := c (snd st) in (r, (fst st, t')).

(** [for x in l: acc = body acc x] *)
Fixpoint for_each {S A B} (l : list A) (acc : B) (body : B -> A -> SE S B)
  : SE S B :=
  match l with
  | [] => ret acc
  | x :: l' => bind (body acc x) (fun acc' => for_each l' acc' body)
  end.
End St.

Declare Scope se_scope.
Delimit Scope se_scope with se.
Notation "x <- c ;; k" := (St.bind c (fun x => k))
  (at level 61, c at next level, right associativity) : se_scope.
Notation "c ;;; k" := (St.bind c (fun _ => k))
  (at level 61, right associativity) : se_scope.

(* ================================================================== *)
(** ** Descriptors, report, log, world *)

(** The dictionary literal built for each file in the main loop. *)
Record FileDict : Type := mkFileDict {
  scope : string;
  lfn : string;
  workdir : string;
  filesize : pyval;
  checksum : string;
  allow_lan : pyval;
  allow_wan : pyval;
  direct_access_lan : pyval;
  guid : string;
  direct_access_wan : pyval;
  is_tar : pyval;
  accessmode : string;
  storage_token : string
}.

(** Modelled from the spec: the [FileSpec] class of [pilot.info] is not part
    of the script.  A descriptor keeps the keyword arguments it was built
    from, its [type] discriminator, and the three outcome fields, which are
    absent until the backend fills them. *)
Record FileSpec : Type := mkFileSpec {
  type : string;
  fields : FileDict;
  status : pyval;
  status_code : pyval;
  turl : pyval
}.

(** [FileSpec(type=t, **f)] *)
Definition FileSpec_new (t : string) (f : FileDict) : FileSpec :=
  mkFileSpec t f PyNone PyNone PyNone.

(** A Python [dict] with string keys, in insertion order: assigning to a
    key that is present replaces its value where it stands, a new key goes
    to the end. *)
Definition dict (V : Type) : Type := list (string * V).

Fixpoint dict_set {V} (d : dict V) (key : string) (v : V) : dict V :=
  match d with
  | [] => [(key, v)]
  | (k, v') :: d' =>
      if String.eqb k key then (k, v) :: d' else (k, v') :: dict_set d' key v
  end.

Fixpoint dict_get {V} (d : dict V) (key : string) : option V :=
  match d with
  | [] => None
  | (k, v) :: d' => if String.eqb k key then Some v else dict_get d' key
  end.

Definition keys {V} (d : dict V) : list string := map fst d.

Definition report : Type := dict (list pyval).

Definition add_to_dictionary (dictionary : report) (key : string)
    (value1 value2 value3 : pyval) : report :=
  dict_set dictionary key [value1; value2; value3].

(** One constructor per [message(...)] call of the script. *)
Inductive msg : Type :=
| MsgExceptionCaught (error : exn)
| MsgList (name : string) (values : list pyval)
| MsgNotSameLength (len_lfns len_scopes : nat)
| MsgFiles (files : list FileDict)
| MsgTransferError (err : string)
| MsgSummary
| MsgFileStatus (lfn : string) (status_code status : pyval)
| MsgTransfersFailed (err : string)
| MsgWrote (path : string)
| MsgFinished.

Record World : Type := mkWorld {
  log : list msg;
  written : list (string * report)
}.

Definition M (A : Type) : Type := SE World A.

Definition message (m : msg) : M unit :=
  St.modify (fun w => mkWorld (log w ++ [m]) (written w)).

(** Modelled from the spec: [write_json] of [pilot.util.filehandling] is not
    part of the script; writing is taken not to fail and leaves the report at
    the given path. *)
Definition write_json (path : string) (data : report) : M bool :=
  fun w => (Ok true, mkWorld (log w) (written w ++ [(path, data)])).

(** [exit(code)] *)
Definition exit {A} (code : Z) : M A := St.raise (SystemExit code).

(** [os.path.join(a, b)] on a POSIX system. *)
Definition ends_with_sep (a : string) : bool :=
  match strip_prefix "/"
          (string_of_list_ascii (rev (list_ascii_of_string a))) with
  | Some _ => true
  | None => false
  end.

Definition os_path_join (a b : string) : string :=
  match strip_prefix "/" b with
  | Some _ => b
  | None =>
      if String.eqb a "" || ends_with_sep a then (a ++ b)%string
      else (a ++ "/" ++ b)%string
  end.

(* ================================================================== *)
(** ** List reconciler: [get_file_lists] *)

(** The local variables of [get_file_lists]. *)
Record FileLists : Type := mkFileLists {
  _lfns : list string;
  _scopes : list string;
  _filesizes : list pyval;
  _checksums : list string;
  _allowlans : list pyval;
  _allowwans : list pyval;
  _directaccesslans : list pyval;
  _directaccesswans : list pyval;
  _istars : list pyval;
  _accessmodes : list string;
  _storagetokens : list string;
  _guids : list string
}.

Definition no_lists : FileLists :=
  mkFileLists [] [] [] [] [] [] [] [] [] [] [] [].

Module Assign.
Definition lfns v (l : FileLists) :=
  mkFileLists v (_scopes l) (_filesizes l) (_checksums l) (_allowlans l)
    (_allowwans l) (_directaccesslans l) (_directaccesswans l) (_istars l)
    (_accessmodes l) (_storagetokens l) (_guids l).
Definition scopes v (l : FileLists) :=
  mkFileLists (_lfns l) v (_filesizes l) (_checksums l) (_allowlans l)
    (_allowwans l) (_directaccesslans l) (_directaccesswans l) (_istars l)
    (_accessmodes l) (_storagetokens l) (_guids l).
Definition filesizes v (l : FileLists) :=
  mkFileLists (_lfns l) (_scopes l) v (_checksums l) (_allowlans l)
    (_allowwans l) (_directaccesslans l) (_directaccesswans l) (_istars l)
    (_accessmodes l) (_storagetokens l) (_guids l).
Definition checksums v (l : FileLists) :=
  mkFileLists (_lfns l) (_scopes l) (_filesizes l) v (_allowlans l)
    (_allowwans l) (_directaccesslans l) (_directaccesswans l) (_istars l)
    (_accessmodes l) (_storagetokens l) (_guids l).
Definition allowlans v (l : FileLists) :=
  mkFileLists (_lfns l) (_scopes l) (_filesizes l) (_checksums l) v
    (_allowwans l) (_directaccesslans l) (_directaccesswans l) (_istars l)
    (_accessmodes l) (_storagetokens l) (_guids l).
Definition allowwans v (l : FileLists) :=
  mkFileLists (_lfns l) (_scopes l) (_filesizes l) (_checksums l)
    (_allowlans l) v (_directaccesslans l) (_directaccesswans l) (_istars l)
    (_accessmodes l) (_storagetokens l) (_guids l).
Definition directaccesslans v (l : FileLists) :=
  mkFileLists (_lfns l) (_scopes l) (_filesizes l) (_checksums l)
    (_allowlans l) (_allowwans l) v (_directaccesswans l) (_istars l)
    (_accessmodes l) (_storagetokens l) (_guids l).
Definition directaccesswans v (l : FileLists) :=
  mkFileLists (_lfns l) (_scopes l) (_filesizes l) (_checksums l)
    (_allowlans l) (_allowwans l) (_directaccesslans l) v (_istars l)
    (_accessmodes l) (_storagetokens l) (_guids l).
Definition istars v (l : FileLists) :=
  mkFileLists (_lfns l) (_scopes l) (_filesizes l) (_checksums l)
    (_allowlans l) (_allowwans l) (_directaccesslans l)
    (_directaccesswans l) v (_accessmodes l) (_storagetokens l) (_guids l).
Definition accessmodes v (l : FileLists) :=
  mkFileLists (_lfns l) (_scopes l) (_filesizes l) (_checksums l)
    (_allowlans l) (_allowwans l) (_directaccesslans l)
    (_directaccesswans l) (_istars l) v (_storagetokens l) (_guids l).
Definition storagetokens v (l : FileLists) :=
  mkFileLists (_lfns l) (_scopes l) (_filesizes l) (_checksums l)
    (_allowlans l) (_allowwans l) (_directaccesslans l)
    (_directaccesswans l) (_istars l) (_accessmodes l) v (_guids l).
Definition guids v (l : FileLists) :=
  mkFileLists (_lfns l) (_scopes l) (_filesizes l) (_checksums l)
    (_allowlans l) (_allowwans l) (_directaccesslans l)
    (_directaccesswans l) (_istars l) (_accessmodes l) (_storagetokens l) v.

(** [_name = expr], where evaluating [expr] may raise. *)
Definition to {A} (set : A -> FileLists -> FileLists) (expr : result A)
  : SE FileLists unit :=
  (v <- St.lift expr ;; St.modify (set v))%se.
End Assign.

(** [str_to_int_list(x.split(','))] and [str_to_bool_list(x.split(','))] *)
Definition split_ints (x : option string) : result (list pyval) :=
  (l <- split x ;; str_to_int_list l)%res.

Definition split_bools (x : option string) : result (list pyval) :=
  (l <- split x ;; Ok (str_to_bool_list (map PyStr l)))%res.

(** The body of the [try] block. *)
Definition get_file_lists_try
    (lfns scopes filesizes checksums allowlans allowwans directaccesslans
     directaccesswans istars accessmodes storagetokens guids : option string)
  : SE FileLists unit :=
  (Assign.to Assign.lfns (split lfns) ;;;
   Assign.to Assign.scopes (split scopes) ;;;
   Assign.to Assign.filesizes (split_ints filesizes) ;;;
   Assign.to Assign.checksums (split checksums) ;;;
   Assign.to Assign.allowlans (split_bools allowlans) ;;;
   Assign.to Assign.allowwans (split_bools allowwans) ;;;
   Assign.to Assign.directaccesslans (split_bools directaccesslans) ;;;
   Assign.to Assign.directaccesswans (split_bools directaccesswans) ;;;
   Assign.to Assign.istars (split_bools istars) ;;;
   Assign.to Assign.accessmodes (split accessmodes) ;;;
   Assign.to Assign.storagetokens (split storagetokens) ;;;
   Assign.to Assign.guids (split guids))%se.

(** The eleven lines that log the lists (the scopes are not logged). *)
Definition log_lists (l : FileLists) : list msg :=
  [ MsgList "lfns" (map PyStr (_lfns l));
    MsgList "filesizes" (_filesizes l);
    MsgList "checksums" (map PyStr (_checksums l));
    MsgList "allowlans" (_allowlans l);
    MsgList "allowwans" (_allowwans l);
    MsgList "directaccesslans" (_directaccesslans l);
    MsgList "directaccesswans" (_directaccesswans l);
    MsgList "istars" (_istars l);
    MsgList "accessmodes" (map PyStr (_accessmodes l));
    MsgList "storagetokens" (map PyStr (_storagetokens l));
    MsgList "guids" (map PyStr (_guids l)) ].

Definition get_file_lists
    (lfns scopes filesizes checksums allowlans allowwans directaccesslans
     directaccesswans istars accessmodes storagetokens guids : option string)
  : M FileLists :=
  fun w =>
    let '(r, (locals, w')) :=
      (St.try_except
         (St.on_fst
            (get_file_lists_try lfns scopes filesizes checksums allowlans
               allowwans directaccesslans directaccesswans istars accessmodes
               storagetokens guids))
         (fun error => St.on_snd (message (MsgExceptionCaught error))) ;;;
       (fun st =>
          St.on_snd
            (St.for_each (log_lists (fst st)) tt (fun _ m => message m)) st)
      )%se (no_lists, w) in
    (match r with Ok _ => Ok locals | Raise e => Raise e end, w').

(* ================================================================== *)
(** ** The main program *)

Module Args.
(** What the script reads from the parsed command line.  The twelve list
    arguments are handed to [get_file_lists] as they are; [None] stands
    for an attribute that is not a string. *)
Record t : Type := mk {
  workdir : string;
  lfns : option string;
  scopes : option string;
  filesizes : option string;
  checksums : option string;
  allowlans : option string;
  allowwans : option string;
  directaccesslans : option string;
  directaccesswans : option string;
  istars : option string;
  accessmodes : option string;
  storagetokens : option string;
  guids : option string;
  eventservicemerge : bool;
  usepcache : bool
}.
End Args.

Inductive client : Type := StageInClient | StageInESClient.

(** [kwargs] of the transfer call. *)
Record Kwargs : Type := mkKwargs {
  kw_workdir : string;
  kw_cwd : string;
  kw_usecontainer : bool;
  kw_use_pcache : bool;
  kw_use_bulk : bool
}.

(** The transfer call either returns a value or raises with a message. *)
Inductive transfer_outcome : Type :=
| Returned (r : pyval)
| Raised (message : string).

(** What the script takes from its surroundings: the configured name of the
    report file ([config.Container.stagein_dictionary]) and the transfer
    backend, which works on the descriptors in place: it is given the list
    and leaves it as it is when it returns or raises. *)
Record Env : Type := mkEnv {
  stagein_dictionary : string;
  transfer : client -> list FileSpec -> string -> Kwargs
             -> list FileSpec * transfer_outcome
}.

Definition TRANSFER_ERROR : Z := 12.

(** [zip] of the twelve lists: as long as the shortest of them. *)
Definition zip12 {A B C D E F G H I J K L}
    (a : list A) (b : list B) (c : list C) (d : list D) (e : list E)
    (f : list F) (g : list G) (h : list H) (i : list I) (j : list J)
    (k : list K) (l : list L) :=
  combine a (combine b (combine c (combine d (combine e (combine f
    (combine g (combine h (combine i (combine j (combine k l)))))))))).

(** The loop that builds the descriptors. *)
Definition build_xfiles (args_workdir : string) (lists : FileLists)
  : M (list FileSpec) :=
  St.for_each
    (zip12 (_lfns lists) (_scopes lists) (_filesizes lists) (_checksums lists)
       (_allowlans lists) (_allowwans lists) (_directaccesslans lists)
       (_directaccesswans lists) (_istars lists) (_accessmodes lists)
       (_storagetokens lists) (_guids lists))
    []
    (fun xfiles
         '(lfn, (scope, (filesize, (checksum, (allowlan, (allowwan, (dalan,
           (dawan, (istar, (accessmode, (sttoken, guid))))))))))) =>
       let files :=
         [ mkFileDict scope lfn args_workdir filesize checksum allowlan
             allowwan dalan guid dawan istar accessmode sttoken ] in
       (message (MsgFiles files) ;;;
        let _xfiles := map (FileSpec_new "input") files in
        St.ret (xfiles ++ _xfiles))%se).

(** The [try] around the transfer call: the descriptors as the backend left
    them, and the values of [err] and [errcode] after the statement. *)
Definition dispatch (env : Env) (c : client) (activity : string)
    (kwargs : Kwargs) (xfiles : list FileSpec) (err : string) (errcode : pyval)
  : M (list FileSpec * string * pyval) :=
  let '(xfiles', outcome) := transfer env c xfiles activity kwargs in
  St.try_except
    (r <- St.lift (match outcome with
                   | Returned r => Ok r
                   | Raised m => Raise (TransferFailure m)
                   end) ;;
     St.ret (xfiles', err, errcode))%se
    (fun e =>
       let err := str_of_exn e in
       let errcode := PyInt (-1) in
       (message (MsgTransferError err) ;;;
        St.ret (xfiles', err, errcode))%se).

(** The summary loop over the descriptors. *)
Definition summarise (xfiles : list FileSpec) (file_dictionary : report)
  : M report :=
  match xfiles with
  | [] => St.ret file_dictionary
  | _ :: _ =>
      (message MsgSummary ;;;
       St.for_each xfiles file_dictionary
         (fun file_dictionary fspec =>
            let file_dictionary :=
              add_to_dictionary file_dictionary (lfn (fields fspec))
                (status fspec) (status_code fspec) (turl fspec) in
            let status_ :=
              if truthy (status fspec) then status fspec
              else PyStr "(not transferred)" in
            message (MsgFileStatus (lfn (fields fspec)) (status_code fspec)
                       status_) ;;;
            St.ret file_dictionary))%se
  end.

Definition main (args : Args.t) (env : Env) : M unit :=
  (lists <- get_file_lists (Args.lfns args) (Args.scopes args)
              (Args.filesizes args) (Args.checksums args)
              (Args.allowlans args) (Args.allowwans args)
              (Args.directaccesslans args) (Args.directaccesswans args)
              (Args.istars args) (Args.accessmodes args)
              (Args.storagetokens args) (Args.guids args) ;;
   let lfns := _lfns lists in
   let scopes := _scopes lists in
   (if negb (List.length lfns =? List.length scopes)%nat
    then message (MsgNotSameLength (List.length lfns) (List.length scopes))
    else St.ret tt) ;;;
   (* perform stage-in (single transfers) *)
   let err := "" in
   let errcode := PyInt 0 in
   let '(client, activity) :=
     if Args.eventservicemerge args
     then (StageInESClient, "es_events_read")
     else (StageInClient, "pr") in
   let kwargs :=
     mkKwargs (Args.workdir args) (Args.workdir args) false
       (Args.usepcache args) false in
   xfiles <- build_xfiles (Args.workdir args) lists ;;
   r <- dispatch env client activity kwargs xfiles err errcode ;;
   let '(xfiles, err, errcode) := r in
   (* put file statuses in a dictionary to be written to file *)
   file_dictionary <- summarise xfiles [] ;;
   (* add error info, if any *)
   r <- (if negb (String.eqb err "")
         then p <- St.lift (extract_error_info err) ;;
              St.ret (snd p, fst p)
         else St.ret (err, errcode)) ;;
   let '(err, errcode) := r in
   let file_dictionary :=
     add_to_dictionary file_dictionary "error" (PyStr err) errcode PyNone in
   let path := os_path_join (Args.workdir args) (stagein_dictionary env) in
   _status <- write_json path file_dictionary ;;
   (if negb (String.eqb err "")
    then message (MsgTransfersFailed err) ;;; exit TRANSFER_ERROR
    else St.ret tt) ;;;
   message (MsgWrote path) ;;;
   message MsgFinished ;;;
   exit 0)%se.

(** A run starts with an empty log and nothing written. *)
Definition empty_world : World := mkWorld [] [].

Definition run (args : Args.t) (env : Env) : result unit * World :=
  main args env empty_world.

(** The exit code of a run that ended in [exit(code)]. *)
Definition exit_code (r : result unit * World) : option Z :=
  match fst r with
  | Raise (SystemExit code) => Some code
  | _ => None
  end.

(* ================================================================== *)
(** ** Closed forms of the stages and sample inputs, used in the statements *)

(** What one element becomes in [str_to_int_list]. *)
Definition int_or_none (x : string) : pyval :=
  match py_int x with
  | Ok n => PyInt n
  | Raise _ => PyNone
  end.

(** The coercion of one element in the words of the specification. *)
Definition coerce_bool_spec (x : pyval) : pyval :=
  match x with
  | PyStr s =>
      if String.eqb s "True" then PyBool true
      else if String.eqb s "False" then PyBool false
      else if String.eqb s "None" || String.eqb s "NULL" then PyNone
      else x
  | _ => x
  end.

(** The two results of [extract_error_info], each on its own. *)
Definition extracted_code (err : string) : pyval :=
  match re_search "error code: " is_digit err with
  | Some m => PyStr (nth 1 (groups m) "")
  | None => PyInt 0
  end.

Definition extracted_message (err : string) : string :=
  match re_search "details: " not_newline err with
  | Some m => strip (remove_all "[PilotException(" (nth 1 (groups m) ""))
  | None => ""
  end.

Definition add_log (w : World) (l : list msg) : World :=
  mkWorld (log w ++ l) (written w).

Definition present (x : option string) : bool :=
  match x with
  | Some _ => true
  | None => false
  end.

(** The pieces of a field; a field that is not a string has none. *)
Definition pieces (x : option string) : list string :=
  match x with
  | Some s => split_comma s
  | None => []
  end.

(** A list is kept when every field up to its own could be split. *)
Definition kept {A} (upto : list (option string)) (v : list A) : list A :=
  if forallb present upto then v else [].

(** The lists [get_file_lists] returns, field by field, in the order of the
    assignments in the [try] block. *)
Definition reconciled
    (lfns scopes filesizes checksums allowlans allowwans directaccesslans
     directaccesswans istars accessmodes storagetokens guids : option string)
  : FileLists :=
  let bools x := str_to_bool_list (map PyStr (pieces x)) in
  mkFileLists
    (kept [lfns] (pieces lfns))
    (kept [lfns; scopes] (pieces scopes))
    (kept [lfns; scopes; filesizes] (map int_or_none (pieces filesizes)))
    (kept [lfns; scopes; filesizes; checksums] (pieces checksums))
    (kept [lfns; scopes; filesizes; checksums; allowlans] (bools allowlans))
    (kept [lfns; scopes; filesizes; checksums; allowlans; allowwans]
       (bools allowwans))
    (kept [lfns; scopes; filesizes; checksums; allowlans; allowwans;
           directaccesslans] (bools directaccesslans))
    (kept [lfns; scopes; filesizes; checksums; allowlans; allowwans;
           directaccesslans; directaccesswans] (bools directaccesswans))
    (kept [lfns; scopes; filesizes; checksums; allowlans; allowwans;
           directaccesslans; directaccesswans; istars] (bools istars))
    (kept [lfns; scopes; filesizes; checksums; allowlans; allowwans;
           directaccesslans; directaccesswans; istars; accessmodes]
       (pieces accessmodes))
    (kept [lfns; scopes; filesizes; checksums; allowlans; allowwans;
           directaccesslans; directaccesswans; istars; accessmodes;
           storagetokens] (pieces storagetokens))
    (kept [lfns; scopes; filesizes; checksums; allowlans; allowwans;
           directaccesslans; directaccesswans; istars; accessmodes;
           storagetokens; guids] (pieces guids)).

(** The line logged by the [except] clause, if it ran. *)
Definition caught_log (fields : list (option string)) : list msg :=
  if forallb present fields then []
  else [MsgExceptionCaught
          (AttributeError "'NoneType' object has no attribute 'split'")].

(** The descriptor made from one tuple of the zipped lists. *)
Definition file_dict_of (args_workdir : string)
    (t : string * (string * (pyval * (string * (pyval * (pyval * (pyval *
         (pyval * (pyval * (string * (string * string)))))))))))
  : FileDict :=
  let '(lfn, (scope, (filesize, (checksum, (allowlan, (allowwan, (dalan,
        (dawan, (istar, (accessmode, (sttoken, guid))))))))))) := t in
  mkFileDict scope lfn args_workdir filesize checksum allowlan allowwan dalan
    guid dawan istar accessmode sttoken.

Definition zipped (lists : FileLists) :=
  zip12 (_lfns lists) (_scopes lists) (_filesizes lists) (_checksums lists)
    (_allowlans lists) (_allowwans lists) (_directaccesslans lists)
    (_directaccesswans lists) (_istars lists) (_accessmodes lists)
    (_storagetokens lists) (_guids lists).

(** The descriptors the loop builds, and what it logs. *)
Definition descriptors (args_workdir : string) (lists : FileLists)
  : list FileSpec :=
  map (fun t => FileSpec_new "input" (file_dict_of args_workdir t))
    (zipped lists).

Definition files_log (args_workdir : string) (lists : FileLists) : list msg :=
  map (fun t => MsgFiles [file_dict_of args_workdir t]) (zipped lists).

(** The shortest of the twelve lists. *)
Definition shortest (lists : FileLists) : nat :=
  Nat.min (List.length (_lfns lists))
 (Nat.min (List.length (_scopes lists))
 (Nat.min (List.length (_filesizes lists))
 (Nat.min (List.length (_checksums lists))
 (Nat.min (List.length (_allowlans lists))
 (Nat.min (List.length (_allowwans lists))
 (Nat.min (List.length (_directaccesslans lists))
 (Nat.min (List.length (_directaccesswans lists))
 (Nat.min (List.length (_istars lists))
 (Nat.min (List.length (_accessmodes lists))
 (Nat.min (List.length (_storagetokens lists))
          (List.length (_guids lists)))))))))))).

Definition all_fields (args : Args.t) : list (option string) :=
  [Args.lfns args; Args.scopes args; Args.filesizes args; Args.checksums args;
   Args.allowlans args; Args.allowwans args; Args.directaccesslans args;
   Args.directaccesswans args; Args.istars args; Args.accessmodes args;
   Args.storagetokens args; Args.guids args].

(** The lists [main] gets from [get_file_lists]. *)
Definition reconciled_args (args : Args.t) : FileLists :=
  reconciled (Args.lfns args) (Args.scopes args) (Args.filesizes args)
    (Args.checksums args) (Args.allowlans args) (Args.allowwans args)
    (Args.directaccesslans args) (Args.directaccesswans args)
    (Args.istars args) (Args.accessmodes args) (Args.storagetokens args)
    (Args.guids args).

(** The descriptors [main] hands to the backend. *)
Definition built (args : Args.t) : list FileSpec :=
  descriptors (Args.workdir args) (reconciled_args args).

(** The one transfer call of a run: the descriptors as the backend leaves
    them, and whether the call returned or raised. *)
Definition transfer_call (args : Args.t) (env : Env)
  : list FileSpec * transfer_outcome :=
  let kwargs :=
    mkKwargs (Args.workdir args) (Args.workdir args) false
      (Args.usepcache args) false in
  if Args.eventservicemerge args
  then transfer env StageInESClient (built args) "es_events_read" kwargs
  else transfer env StageInClient (built args) "pr" kwargs.

(** [err] and [errcode] after the [try] around the transfer call. *)
Definition captured (o : transfer_outcome) : string * pyval :=
  match o with
  | Returned _ => ("", PyInt 0)
  | Raised m => (m, PyInt (-1))
  end.

(** [err] and [errcode] after the error extraction. *)
Definition global_error (o : transfer_outcome) : string * pyval :=
  let '(err, errcode) := captured o in
  if negb (String.eqb err "")
  then (extracted_message err, extracted_code err)
  else (err, errcode).

(** The summary loop as a fold. *)
Definition aggregate (xfiles : list FileSpec) (d : report) : report :=
  fold_left
    (fun d fspec =>
       add_to_dictionary d (lfn (fields fspec)) (status fspec)
         (status_code fspec) (turl fspec))
    xfiles d.

Definition status_line (fspec : FileSpec) : msg :=
  MsgFileStatus (lfn (fields fspec)) (status_code fspec)
    (if truthy (status fspec) then status fspec
     else PyStr "(not transferred)").

Definition summary_log (xfiles : list FileSpec) : list msg :=
  match xfiles with
  | [] => []
  | _ :: _ => MsgSummary :: map status_line xfiles
  end.

(** The report of a run, its path and its exit code. *)
Definition report_of (args : Args.t) (env : Env) : report :=
  let '(xfiles, o) := transfer_call args env in
  add_to_dictionary (aggregate xfiles []) "error"
    (PyStr (fst (global_error o))) (snd (global_error o)) PyNone.

Definition report_path (args : Args.t) (env : Env) : string :=
  os_path_join (Args.workdir args) (stagein_dictionary env).

Definition exit_code_of (args : Args.t) (env : Env) : Z :=
  if negb (String.eqb (fst (global_error (snd (transfer_call args env)))) "")
  then TRANSFER_ERROR else 0.

Definition mismatch_log (lists : FileLists) : list msg :=
  if negb (List.length (_lfns lists) =? List.length (_scopes lists))%nat
  then [MsgNotSameLength (List.length (_lfns lists))
          (List.length (_scopes lists))]
  else [].

Definition dispatch_log (o : transfer_outcome) : list msg :=
  match o with
  | Returned _ => []
  | Raised m => [MsgTransferError m]
  end.

Definition final_log (err path : string) : list msg :=
  if negb (String.eqb err "") then [MsgTransfersFailed err]
  else [MsgWrote path; MsgFinished].

(** Everything a run logs, in order. *)
Definition main_log (args : Args.t) (env : Env) : list msg :=
  caught_log (all_fields args) ++ log_lists (reconciled_args args)
  ++ mismatch_log (reconciled_args args)
  ++ files_log (Args.workdir args) (reconciled_args args)
  ++ dispatch_log (snd (transfer_call args env))
  ++ summary_log (fst (transfer_call args env))
  ++ final_log (fst (global_error (snd (transfer_call args env))))
       (report_path args env).

(** Two files; only the names and the scopes vary. *)
Definition sample_args (lfns scopes : string) : Args.t :=
  Args.mk "/srv/job" (Some lfns) (Some scopes) (Some "10,20")
    (Some "ad:1,ad:2") (Some "True,False") (Some "True,True")
    (Some "False,None") (Some "False,NULL") (Some "False,False")
    (Some "copy,direct") (Some "DATADISK,DATADISK") (Some "g1,g2")
    false false.

(** A backend that transfers every file and notes the guid in the turl. *)
Definition done_env : Env :=
  mkEnv "stagein_dictionary.json"
    (fun _ xfiles _ _ =>
       (map (fun f => mkFileSpec (type f) (fields f) (PyStr "transferred")
                        (PyInt 0) (PyStr (guid (fields f))))
          xfiles,
        Returned PyNone)).

(** Two files that are both named "error", as the backend leaves them. *)
Definition error_twice : Args.t := sample_args "error,error" "s,s".

Definition earlier_error : FileSpec :=
  mkFileSpec "input"
    (mkFileDict "s" "error" "/srv/job" (PyInt 10) "ad:1" (PyBool true)
       (PyBool true) (PyBool false) "g1" (PyBool false) (PyBool false)
       "copy" "DATADISK")
    (PyStr "transferred") (PyInt 0) (PyStr "g1").

Definition later_error : FileSpec :=
  mkFileSpec "input"
    (mkFileDict "s" "error" "/srv/job" (PyInt 20) "ad:2" (PyBool false)
       (PyBool true) PyNone "g2" PyNone (PyBool false) "direct" "DATADISK")
    (PyStr "transferred") (PyInt 0) (PyStr "g2").

(** A backend that raises with the given message and touches nothing. *)
Definition failing_env (m : string) : Env :=
  mkEnv "stagein_dictionary.json" (fun _ xfiles _ _ => (xfiles, Raised m)).

(** A call in which the scopes are not a string. *)
Definition scopes_absent : result FileLists * World :=
  get_file_lists (Some "a,b") None (Some "1,2") (Some "c1,c2")
    (Some "True,True") (Some "True,True") (Some "False,False")
    (Some "False,False") (Some "False,False") (Some "copy,copy")
    (Some "T,T") (Some "g1,g2") empty_world.

(** The same fields as the arguments of a run. *)
Definition scopes_absent_args : Args.t :=
  Args.mk "/srv/job" (Some "a,b") None (Some "1,2") (Some "c1,c2")
    (Some "True,True") (Some "True,True") (Some "False,False")
    (Some "False,False") (Some "False,False") (Some "copy,copy")
    (Some "T,T") (Some "g1,g2") false false.

(** Three names and scopes, two sizes. *)
Definition short_sizes : Args.t :=
  Args.mk "/srv/job" (Some "a,b,c") (Some "s,s,s") (Some "1,2")
    (Some "c1,c2,c3") (Some "True,True,True") (Some "True,True,True")
    (Some "False,False,False") (Some "False,False,False")
    (Some "False,False,False") (Some "copy,copy,copy") (Some "T,T,T")
    (Some "g1,g2,g3") false false.

(** Three names, two scopes. *)
Definition short_scopes : Args.t :=
  Args.mk "/srv/job" (Some "a,b,c") (Some "s,s") (Some "1,2,3")
    (Some "c1,c2,c3") (Some "True,True,True") (Some "True,True,True")
    (Some "False,False,False") (Some "False,False,False")
    (Some "False,False,False") (Some "copy,copy,copy") (Some "T,T,T")
    (Some "g1,g2,g3") false false.

Definition is_not_same_length (m : msg) : bool :=
  match m with
  | MsgNotSameLength _ _ => true
  | _ => false
  end.

Definition is_exception_caught (m : msg) : bool :=
  match m with
  | MsgExceptionCaught _ => true
  | _ => false
  end.

(* ================================================================== *)
(** ** Further functions of the script: [str2bool], [verify_args], [Job] *)

(** [c.lower()] on the code points below 256: the ASCII capitals and the
    capitals of the range 192..222 (215 is the multiplication sign). *)
Definition lower_char (c : ascii) : ascii :=
  let n := nat_of_ascii c in
  if ((65 <=? n)%nat && (n <=? 90)%nat)
     || ((192 <=? n)%nat && (n <=? 222)%nat && negb (n =? 215)%nat)
  then ascii_of_nat (n + 32) else c.

(** [s.lower()] *)
Fixpoint lower (s : string) : string :=
  match s with
  | EmptyString => EmptyString
  | String c s' => String (lower_char c) (lower s')
  end.

(** What [str2bool] can raise: [argparse.ArgumentTypeError], or an exception
    of the interpreter. *)
Inductive cli_exn : Type :=
| ArgumentTypeError (what : string)
| Builtin (e : exn).

Inductive cli_result (A : Type) : Type :=
| Parsed (a : A)
| Rejected (e : cli_exn).
Arguments Parsed {A} a.
Arguments Rejected {A} e.

(** [x in (a, b, ...)] for strings *)
Definition str_in (x : string) (t : list string) : bool :=
  existsb (String.eqb x) t.

Definition str2bool (v : pyval) : cli_result bool :=
  match v with
  | PyBool b => Parsed b
  | PyStr s =>
      if str_in (lower s) ["yes"; "true"; "t"; "y"; "1"] then Parsed true
      else if str_in (lower s) ["no"; "false"; "f"; "n"; "0"] then Parsed false
      else Rejected (ArgumentTypeError "Boolean value expected.")
  | PyNone =>
      Rejected (Builtin
        (AttributeError "'NoneType' object has no attribute 'lower'"))
  | PyInt _ =>
      Rejected (Builtin (AttributeError "'int' object has no attribute 'lower'"))
  end.

(** The error codes of the script ([TRANSFER_ERROR] is defined above). *)
Definition GENERAL_ERROR : Z := 1.
Definition NO_QUEUENAME : Z := 2.
Definition NO_SCOPES : Z := 3.
Definition NO_LFNS : Z := 4.
Definition NO_EVENTTYPE : Z := 5.
Definition NO_LOCALSITE : Z := 6.
Definition NO_REMOTESITE : Z := 7.
Definition NO_PRODUSERID : Z := 8.
Definition NO_JOBID : Z := 9.
Definition NO_TASKID : Z := 10.
Definition NO_JOBDEFINITIONID : Z := 11.

Module Namespace.
(** The attributes of [args] that [verify_args] reads; [None] or a string. *)
Record t : Type := mk {
  workdir : option string;
  queuename : option string;
  scopes : option string;
  lfns : option string;
  eventtype : option string;
  localsite : option string;
  remotesite : option string;
  produserid : option string;
  jobid : option string;
  taskid : option string;
  jobdefinitionid : option string
}.

(** [args.workdir = v] *)
Definition set_workdir (v : option string) (args : t) : t :=
  mk v (queuename args) (scopes args) (lfns args) (eventtype args)
    (localsite args) (remotesite args) (produserid args) (jobid args)
    (taskid args) (jobdefinitionid args).
End Namespace.

(** [not x] for an attribute that is [None] or a string. *)
Definition falsy (x : option string) : bool :=
  match x with
  | None => true
  | Some s => String.eqb s ""
  end.

(** Where the text of [message(msg)] goes: to [print] when the global
    [logger] is not set, to [logger.info] when it is. *)
Record Console : Type := mkConsole {
  printed : list string;
  logger_info : list string
}.

Definition message_text (logger : bool) (m : string) : SE Console unit :=
  St.modify
    (fun c =>
       if negb logger then mkConsole (printed c ++ [m]) (logger_info c)
       else mkConsole (printed c) (logger_info c ++ [m])).

Definition get_state {S} : SE S S := fun s => (Ok s, s).

(** [verify_args] works on the global [args], which it may change, and on
    the console; [getcwd] is what [os.getcwd()] returns. *)
Definition verify_args (logger : bool) (getcwd : string)
  : SE (Namespace.t * Console) Z :=
  let say m := St.on_snd (message_text logger m) in
  (St.on_fst
     (St.modify
        (fun args =>
           if falsy (Namespace.workdir args)
           then Namespace.set_workdir (Some getcwd) args
           else args)) ;;;
   args <- St.on_fst get_state ;;
   if falsy (Namespace.queuename args) then
     say "queue name not set, cannot initialize InfoService" ;;;
     St.ret NO_QUEUENAME
   else if falsy (Namespace.scopes args) then
     say "scopes not set" ;;; St.ret NO_SCOPES
   else if falsy (Namespace.lfns args) then
     say "LFNs not set" ;;; St.ret NO_LFNS
   else if falsy (Namespace.eventtype args) then
     say "No event type provided" ;;; St.ret NO_EVENTTYPE
   else if falsy (Namespace.localsite args) then
     say "No local site provided" ;;; St.ret NO_LOCALSITE
   else if falsy (Namespace.remotesite args) then
     say "No remote site provided" ;;; St.ret NO_REMOTESITE
   else if falsy (Namespace.produserid args) then
     say "No produserid provided" ;;; St.ret NO_PRODUSERID
   else if falsy (Namespace.jobid args) then
     say "No jobid provided" ;;; St.ret NO_JOBID
   else if falsy (Namespace.taskid args) then
     say "No taskid provided" ;;; St.ret NO_TASKID
   else if falsy (Namespace.jobdefinitionid args) then
     say "No jobdefinitionid provided" ;;; St.ret NO_JOBDEFINITIONID
   else St.ret 0%Z)%se.

(** [s.replace(old, new)] for a non-empty [old]: occurrences are replaced
    left to right, without overlap.  [skip] counts the characters of a
    matched occurrence that remain to be dropped. *)
Fixpoint replace_from (old new : string) (skip : nat) (s : string) : string :=
  match s with
  | EmptyString => EmptyString
  | String c s' =>
      match skip with
      | S k => replace_from old new k s'
      | O =>
          match strip_prefix old s with
          | Some _ =>
              (new ++ replace_from old new (String.length old - 1) s')%string
          | None => String c (replace_from old new 0 s')
          end
      end
  end.

Definition replace (old new s : string) : string := replace_from old new 0 s.

(** The class [Job]. *)
Module Job.
Record t : Type := mk {
  produserid : string;
  jobid : string;
  taskid : string;
  jobdefinitionid : string
}.

(** [Job(produserid=..., jobid=..., taskid=..., jobdefinitionid=...)] *)
Definition init (produserid jobid taskid jobdefinitionid : string) : t :=
  mk (replace "%20" " " produserid) jobid taskid jobdefinitionid.
End Job.

(* ================================================================== *)
(** ** Notions used in the statements about the further properties *)

(** The ten attributes [verify_args] requires, in the order it tests them. *)
Definition required (args : Namespace.t) : list (option string) :=
  [Namespace.queuename args; Namespace.scopes args; Namespace.lfns args;
   Namespace.eventtype args; Namespace.localsite args;
   Namespace.remotesite args; Namespace.produserid args;
   Namespace.jobid args; Namespace.taskid args;
   Namespace.jobdefinitionid args].

(** Position of the first attribute of a list that is not set. *)
Fixpoint first_falsy (l : list (option string)) : option nat :=
  match l with
  | [] => None
  | x :: l' => if falsy x then Some 0%nat else option_map S (first_falsy l')
  end.

(** Every character of a string satisfies [p]. *)
Fixpoint string_forall (p : ascii -> bool) (s : string) : bool :=
  match s with
  | EmptyString => true
  | String c s' => p c && string_forall p s'
  end.

Definition first_char (s : string) : option ascii :=
  match s with
  | EmptyString => None
  | String c _ => Some c
  end.

Fixpoint last_char (s : string) : option ascii :=
  match s with
  | EmptyString => None
  | String c s' =>
      match last_char s' with
      | Some d => Some d
      | None => Some c
      end
  end.

(** A character passes [p], or there is none. *)
Definition char_is (p : ascii -> bool) (c : option ascii) : bool :=
  match c with
  | Some a => p a
  | None => false
  end.

Fixpoint count_commas (s : string) : nat :=
  match s with
  | EmptyString => 0
  | String c s' =>
      if Ascii.eqb c "," then S (count_commas s') else count_commas s'
  end.

(** The lengths of the twelve lists, in the order of the arguments. *)
Definition lengths (l : FileLists) : list nat :=
  [List.length (_lfns l); List.length (_scopes l);
   List.length (_filesizes l); List.length (_checksums l);
   List.length (_allowlans l); List.length (_allowwans l);
   List.length (_directaccesslans l); List.length (_directaccesswans l);
   List.length (_istars l); List.length (_accessmodes l);
   List.length (_storagetokens l); List.length (_guids l)].

(** The names of a list in the order of their first occurrence. *)
Definition first_occurrences (l : list string) : list string :=
  fold_left
    (fun seen k => if str_in k seen then seen else seen ++ [k]) l [].

(** The report entry of a descriptor. *)
Definition entry_of (fspec : FileSpec) : string * list pyval :=
  (lfn (fields fspec), [status fspec; status_code fspec; turl fspec]).

Definition is_file_status (m : msg) : bool :=
  match m with
  | MsgFileStatus _ _ _ => true
  | _ => false
  end.

(* ================================================================== *)
(** * Properties *)


(** ** Integer coercion *)

Lemma py_int_raises_ValueError (x : string) (e : exn) :
  py_int x = Raise e -> is_Exception e = true.
Proof.
  unfold py_int.
  destruct (match strip_with is_int_space x with
            | String "+" r => int_digits 0 true r
            | String "-" r => option_map Z.opp (int_digits 0 true r)
            | _ => int_digits 0 true (strip_with is_int_space x)
            end) as [n|]; intros H; inversion H; reflexivity.
Qed.

Lemma try_int_or_none (x : string) :
  Res.try_except (n <- py_int x ;; Ok (PyInt n))%res (fun _ => Ok PyNone)
  = Ok (int_or_none x).
Proof.
  unfold int_or_none.
  destruct (py_int x) as [n|e] eqn:E; simpl; [reflexivity|].
  now rewrite (py_int_raises_ValueError x e E).
Qed.

Lemma str_to_int_list_loop_spec (l : list string) (acc : list pyval) :
  str_to_int_list_loop l acc = Ok (acc ++ map int_or_none l).
Proof.
  revert acc; induction l as [|x l IH]; intros acc; simpl.
  - now rewrite app_nil_r.
  - rewrite try_int_or_none; simpl.
    rewrite IH, <- app_assoc; reflexivity.
Qed.

Lemma str_to_int_list_spec (l : list string) :
  str_to_int_list l = Ok (map int_or_none l).
Proof. apply str_to_int_list_loop_spec. Qed.

Example str_to_int_list_sample :
  str_to_int_list ["12"; "abc"; ""; " 7 "; "-3"; "1_000"; "4.5"]
  = Ok [PyInt 12; PyNone; PyNone; PyInt 7; PyInt (-3); PyInt 1000; PyNone].
Proof. reflexivity. Qed.

(** C9. [str_to_int_list] never raises: on every list of strings it returns
    a list of the same length, whose i-th element is the integer value of
    the i-th input when [int] accepts it and [None] when [int] raises. *)
Theorem str_to_int_list_never_raises (l : list string) :
  exists out : list pyval,
    str_to_int_list l = Ok out /\
    List.length out = List.length l /\
    forall (i : nat) (x : string),
      nth_error l i = Some x ->
      nth_error out i = Some (match py_int x with
                              | Ok n => PyInt n
                              | Raise _ => PyNone
                              end).
Proof.
  exists (map int_or_none l); split; [apply str_to_int_list_spec|].
  split; [apply length_map|].
  intros i x H.
  rewrite nth_error_map, H; reflexivity.
Qed.

Lemma str_to_int_list_never_raises_witness :
  exists out : list pyval,
    str_to_int_list ["5"; "x"] = Ok out /\
    List.length out = 2%nat /\
    nth_error out 0 = Some (PyInt 5) /\
    nth_error out 1 = Some PyNone.
Proof.
  destruct (str_to_int_list_never_raises ["5"; "x"]) as (out & E & Hlen & Hnth).
  exists out; repeat split.
  - exact E.
  - exact Hlen.
  - exact (Hnth 0%nat "5" eq_refl).
  - exact (Hnth 1%nat "x" eq_refl).
Defined.

(** ** Boolean coercion *)

Lemma changes_get (x : pyval) :
  dict_get_default changes x x = coerce_bool_spec x.
Proof.
  destruct x as [|b|z|s]; try reflexivity.
  unfold changes, dict_get_default, py_eqb, coerce_bool_spec.
  rewrite !(String.eqb_sym _ s).
  destruct (String.eqb s "True"); [reflexivity|].
  destruct (String.eqb s "False"); [reflexivity|].
  destruct (String.eqb s "None"); [reflexivity|].
  destruct (String.eqb s "NULL"); reflexivity.
Qed.

Lemma coerce_bool_spec_idem (x : pyval) :
  coerce_bool_spec (coerce_bool_spec x) = coerce_bool_spec x.
Proof.
  destruct x as [|b|z|s]; simpl; try reflexivity.
  destruct (String.eqb s "True") eqn:E1; [reflexivity|].
  destruct (String.eqb s "False") eqn:E2; [reflexivity|].
  destruct (String.eqb s "None" || String.eqb s "NULL") eqn:E3; [reflexivity|].
  simpl; rewrite E1, E2, E3; reflexivity.
Qed.

Example str_to_bool_list_sample :
  str_to_bool_list
    [PyStr "True"; PyStr "False"; PyStr "None"; PyStr "NULL"; PyStr "true";
     PyStr ""; PyBool false; PyNone]
  = [PyBool true; PyBool false; PyNone; PyNone; PyStr "true"; PyStr "";
     PyBool false; PyNone].
Proof. reflexivity. Qed.

(** C10. [str_to_bool_list] maps the tokens "True" and "False" to the
    booleans, "None" and "NULL" to [None], and leaves every other element as
    it is; coercing a coerced list changes nothing. *)
Theorem str_to_bool_list_idempotent (l : list pyval) :
  str_to_bool_list l = map coerce_bool_spec l /\
  str_to_bool_list (str_to_bool_list l) = str_to_bool_list l.
Proof.
  assert (E : forall l', str_to_bool_list l' = map coerce_bool_spec l').
  { intros l'; unfold str_to_bool_list.
    apply map_ext; intros x; apply changes_get. }
  split; [apply E|].
  rewrite !E, map_map.
  apply map_ext; intros x; apply coerce_bool_spec_idem.
Qed.

(** ** Error extractor *)

Lemma match_here_groups lit cls s m :
  match_here lit cls s = Some m ->
  exists g, groups m = [(lit ++ g)%string; g] /\ g <> "".
Proof.
  unfold match_here.
  destruct (strip_prefix lit s) as [rest|]; [|discriminate].
  destruct (String.eqb (take_while cls rest) "") eqn:E; [discriminate|].
  intros H; inversion H; subst; simpl.
  exists (take_while cls rest); split; [reflexivity|].
  now apply String.eqb_neq.
Qed.

Lemma re_search_groups lit cls s m :
  re_search lit cls s = Some m ->
  exists g, groups m = [(lit ++ g)%string; g] /\ g <> "".
Proof.
  induction s as [|c s IH]; simpl.
  - destruct (match_here lit cls "") as [m'|] eqn:E; [|discriminate].
    intros H; inversion H; subst; eauto using match_here_groups.
  - destruct (match_here lit cls (String c s)) as [m'|] eqn:E.
    + intros H; inversion H; subst; eauto using match_here_groups.
    + exact IH.
Qed.

Lemma re_search_absent lit cls s :
  contains lit s = false -> re_search lit cls s = None.
Proof.
  induction s as [|c s IH]; simpl; unfold match_here.
  - destruct (strip_prefix lit "") ; [discriminate|reflexivity].
  - destruct (strip_prefix lit (String c s)); [discriminate|exact IH].
Qed.

Lemma extract_error_info_total (err : string) :
  extract_error_info err = Ok (extracted_code err, extracted_message err).
Proof.
  unfold extract_error_info, extracted_code, extracted_message, group.
  destruct (re_search "error code: " is_digit err) as [m1|] eqn:E1;
    destruct (re_search "details: " not_newline err) as [m2|] eqn:E2;
    try (apply re_search_groups in E1 as (g1 & -> & _));
    try (apply re_search_groups in E2 as (g2 & -> & _));
    reflexivity.
Qed.

Lemma extracted_message_absent (err : string) :
  contains "details: " err = false -> extracted_message err = "".
Proof.
  intros H; unfold extracted_message.
  now rewrite (re_search_absent _ _ _ H).
Qed.

Lemma extracted_code_absent (err : string) :
  contains "error code: " err = false -> extracted_code err = PyInt 0.
Proof.
  intros H; unfold extracted_code.
  now rewrite (re_search_absent _ _ _ H).
Qed.

Example extract_error_info_timeout :
  extract_error_info "... error code: 3 ... details: timeout"
  = Ok (PyStr "3", "timeout").
Proof. reflexivity. Qed.

(** C4, as the specification has it, fails: on the specification's own
    input the message keeps the text in front of the wrapper token. *)
Lemma extract_error_info_example_not_oops :
  extract_error_info
    "... error code: 42 ... details: something [PilotException(oops"
  <> Ok (PyStr "42", "oops").
Proof. vm_compute; intros H; discriminate H. Qed.

(** C4, amended.  On the specification's input [extract_error_info] returns
    the code "42" and the message "something oops": the wrapper token is
    removed where it stands and the blanks around the message are trimmed.
    An input with neither "error code: " nor "details: " gives code 0 and
    the empty message, and no input makes the function raise. *)
Theorem extract_error_info_spec :
  extract_error_info
    "... error code: 42 ... details: something [PilotException(oops"
  = Ok (PyStr "42", "something oops") /\
  (forall err : string,
      contains "error code: " err = false ->
      contains "details: " err = false ->
      extract_error_info err = Ok (PyInt 0, "")) /\
  (forall err : string,
      exists (code : pyval) (message : string),
        extract_error_info err = Ok (code, message)).
Proof.
  split; [reflexivity|split].
  - intros err Hc Hd.
    rewrite extract_error_info_total.
    now rewrite (extracted_code_absent _ Hc), (extracted_message_absent _ Hd).
  - intros err; rewrite extract_error_info_total; eauto.
Qed.

Lemma extract_error_info_spec_witness :
  extract_error_info "connection refused" = Ok (PyInt 0, "").
Proof.
  apply (proj1 (proj2 extract_error_info_spec) "connection refused");
    reflexivity.
Defined.

(** ** The monad: how the pieces of a run compose *)

Lemma add_log_nil (w : World) : add_log w [] = w.
Proof. destruct w; unfold add_log; simpl; now rewrite app_nil_r. Qed.

Lemma add_log_app (w : World) (l1 l2 : list msg) :
  add_log (add_log w l1) l2 = add_log w (l1 ++ l2).
Proof. unfold add_log; simpl; now rewrite app_assoc. Qed.

Lemma message_eq (m : msg) (w : World) : message m w = (Ok tt, add_log w [m]).
Proof. reflexivity. Qed.

Lemma bind_ok {S A B} (c : SE S A) (k : A -> SE S B) (s s' : S) (a : A) :
  c s = (Ok a, s') -> St.bind c k s = k a s'.
Proof. intros H; unfold St.bind; now rewrite H. Qed.

(** A loop whose body logs one line and updates the accumulator. *)
Lemma for_each_log {A B} (f : B -> A -> B) (g : A -> msg)
    (body : B -> A -> M B) (l : list A) :
  (forall acc x w, body acc x w = (Ok (f acc x), add_log w [g x])) ->
  forall acc w,
    St.for_each l acc body w = (Ok (fold_left f l acc), add_log w (map g l)).
Proof.
  intros Hbody; induction l as [|x l IH]; intros acc w; simpl.
  - unfold St.ret; now rewrite add_log_nil.
  - rewrite (bind_ok _ _ _ _ _ (Hbody acc x w)), IH, add_log_app.
    reflexivity.
Qed.

(** ** List reconciler *)

Lemma split_ints_eq (s : string) :
  split_ints (Some s) = Ok (map int_or_none (split_comma s)).
Proof. unfold split_ints; simpl; apply str_to_int_list_spec. Qed.

Ltac absent_or_present x := destruct x; [|reflexivity].

Lemma get_file_lists_try_eq
    (lfns scopes filesizes checksums allowlans allowwans directaccesslans
     directaccesswans istars accessmodes storagetokens guids : option string) :
  let all := [lfns; scopes; filesizes; checksums; allowlans; allowwans;
              directaccesslans; directaccesswans; istars; accessmodes;
              storagetokens; guids] in
  get_file_lists_try lfns scopes filesizes checksums allowlans allowwans
    directaccesslans directaccesswans istars accessmodes storagetokens guids
    no_lists
  = ((if forallb present all then Ok tt
      else Raise (AttributeError "'NoneType' object has no attribute 'split'")),
     reconciled lfns scopes filesizes checksums allowlans allowwans
       directaccesslans directaccesswans istars accessmodes storagetokens
       guids).
Proof.
  unfold get_file_lists_try.
  destruct filesizes as [s3|]; [rewrite split_ints_eq|];
    absent_or_present lfns; absent_or_present scopes; try reflexivity.
  absent_or_present checksums; absent_or_present allowlans;
    absent_or_present allowwans; absent_or_present directaccesslans;
    absent_or_present directaccesswans; absent_or_present istars;
    absent_or_present accessmodes; absent_or_present storagetokens;
    absent_or_present guids; reflexivity.
Qed.

Lemma get_file_lists_eq
    (lfns scopes filesizes checksums allowlans allowwans directaccesslans
     directaccesswans istars accessmodes storagetokens guids : option string)
    (w : World) :
  let all := [lfns; scopes; filesizes; checksums; allowlans; allowwans;
              directaccesslans; directaccesswans; istars; accessmodes;
              storagetokens; guids] in
  let lists := reconciled lfns scopes filesizes checksums allowlans allowwans
                 directaccesslans directaccesswans istars accessmodes
                 storagetokens guids in
  get_file_lists lfns scopes filesizes checksums allowlans allowwans
    directaccesslans directaccesswans istars accessmodes storagetokens guids w
  = (Ok lists, add_log w (caught_log all ++ log_lists lists)).
Proof.
  intros all lists.
  unfold get_file_lists, St.bind, St.try_except, St.on_fst; simpl fst.
  rewrite get_file_lists_try_eq.
  fold all; fold lists; unfold caught_log.
  destruct (forallb present all); simpl; unfold add_log; simpl;
    rewrite <- ?app_assoc; reflexivity.
Qed.

(** ** Descriptor builder *)

Lemma nth_error_combine {A B} (l : list A) (l' : list B) (i : nat) :
  nth_error (combine l l') i
  = match nth_error l i, nth_error l' i with
    | Some x, Some y => Some (x, y)
    | _, _ => None
    end.
Proof.
  revert l' i; induction l as [|x l IH]; intros [|y l'] [|i]; simpl;
    try reflexivity.
  - now destruct (nth_error l i).
  - apply IH.
Qed.

Lemma nth_error_in_range {A} (l : list A) (i : nat) (d : A) :
  (i < List.length l)%nat -> nth_error l i = Some (nth i l d).
Proof. intros H; now apply nth_error_nth'. Qed.

Lemma fold_left_snoc {A B} (f : A -> B) (l : list A) (acc : list B) :
  fold_left (fun acc x => acc ++ [f x]) l acc = acc ++ map f l.
Proof.
  revert acc; induction l as [|x l IH]; intros acc; simpl.
  - now rewrite app_nil_r.
  - now rewrite IH, <- app_assoc.
Qed.

Lemma build_xfiles_eq (args_workdir : string) (lists : FileLists) (w : World) :
  build_xfiles args_workdir lists w
  = (Ok (descriptors args_workdir lists),
     add_log w (files_log args_workdir lists)).
Proof.
  unfold build_xfiles, descriptors, files_log.
  fold (zipped lists).
  rewrite (for_each_log
             (fun acc t =>
                acc ++ [FileSpec_new "input" (file_dict_of args_workdir t)])
             (fun t => MsgFiles [file_dict_of args_workdir t])).
  - now rewrite fold_left_snoc.
  - intros acc t w'.
    destruct t as (lfn & scope & filesize & checksum & allowlan & allowwan
                   & dalan & dawan & istar & accessmode & sttoken & guid).
    reflexivity.
Qed.

Lemma descriptors_length (args_workdir : string) (lists : FileLists) :
  List.length (descriptors args_workdir lists) = shortest lists.
Proof.
  unfold descriptors, zipped, zip12, shortest.
  rewrite length_map, !length_combine; reflexivity.
Qed.

(** The i-th descriptor is made of the i-th element of every list. *)
Lemma descriptors_nth (args_workdir : string) (lists : FileLists) (i : nat) :
  (i < shortest lists)%nat ->
  nth_error (descriptors args_workdir lists) i
  = Some (FileSpec_new "input"
            (mkFileDict
               (nth i (_scopes lists) "") (nth i (_lfns lists) "")
               args_workdir
               (nth i (_filesizes lists) PyNone)
               (nth i (_checksums lists) "")
               (nth i (_allowlans lists) PyNone)
               (nth i (_allowwans lists) PyNone)
               (nth i (_directaccesslans lists) PyNone)
               (nth i (_guids lists) "")
               (nth i (_directaccesswans lists) PyNone)
               (nth i (_istars lists) PyNone)
               (nth i (_accessmodes lists) "")
               (nth i (_storagetokens lists) ""))).
Proof.
  unfold shortest; intros H.
  unfold descriptors, zipped, zip12.
  rewrite nth_error_map, !nth_error_combine.
  rewrite (nth_error_in_range (_lfns lists) i "") by lia.
  rewrite (nth_error_in_range (_scopes lists) i "") by lia.
  rewrite (nth_error_in_range (_filesizes lists) i PyNone) by lia.
  rewrite (nth_error_in_range (_checksums lists) i "") by lia.
  rewrite (nth_error_in_range (_allowlans lists) i PyNone) by lia.
  rewrite (nth_error_in_range (_allowwans lists) i PyNone) by lia.
  rewrite (nth_error_in_range (_directaccesslans lists) i PyNone) by lia.
  rewrite (nth_error_in_range (_directaccesswans lists) i PyNone) by lia.
  rewrite (nth_error_in_range (_istars lists) i PyNone) by lia.
  rewrite (nth_error_in_range (_accessmodes lists) i "") by lia.
  rewrite (nth_error_in_range (_storagetokens lists) i "") by lia.
  rewrite (nth_error_in_range (_guids lists) i "") by lia.
  reflexivity.
Qed.

(** ** Dispatch, aggregation and exit: a run in closed form *)

Lemma summarise_eq (xfiles : list FileSpec) (d : report) (w : World) :
  summarise xfiles d w
  = (Ok (aggregate xfiles d), add_log w (summary_log xfiles)).
Proof.
  unfold summarise, aggregate, summary_log.
  destruct xfiles as [|x xs].
  - unfold St.ret; now rewrite add_log_nil.
  - rewrite (bind_ok _ _ _ _ _ (message_eq MsgSummary w)).
    rewrite (for_each_log
               (fun d fspec =>
                  add_to_dictionary d (lfn (fields fspec)) (status fspec)
                    (status_code fspec) (turl fspec))
               status_line).
    + now rewrite add_log_app.
    + intros acc f w'; reflexivity.
Qed.

Lemma dispatch_eq (env : Env) (c : client) (activity : string)
    (kwargs : Kwargs) (xfiles : list FileSpec) (w : World) :
  let call := transfer env c xfiles activity kwargs in
  dispatch env c activity kwargs xfiles "" (PyInt 0) w
  = (Ok (fst call, fst (captured (snd call)), snd (captured (snd call))),
     add_log w (dispatch_log (snd call))).
Proof.
  intros call; unfold dispatch; fold call.
  destruct call as [xfiles' [r|m]]; simpl.
  - unfold St.try_except, St.bind, St.lift, St.ret; simpl.
    now rewrite add_log_nil.
  - reflexivity.
Qed.

Lemma finish_eq (path : string) (d : report) (err : string) (errcode : pyval)
    (w : World) :
  ((r <- (if negb (String.eqb err "")
          then p <- St.lift (extract_error_info err) ;;
               St.ret (snd p, fst p)
          else St.ret (err, errcode)) ;;
   let '(err, errcode) := r in
   _status <- write_json path
                (add_to_dictionary d "error" (PyStr err) errcode PyNone) ;;
   (if negb (String.eqb err "")
    then message (MsgTransfersFailed err) ;;; exit TRANSFER_ERROR
    else St.ret tt) ;;;
   message (MsgWrote path) ;;;
   message MsgFinished ;;;
   exit 0)%se : M unit) w
  = let e := if negb (String.eqb err "")
             then (extracted_message err, extracted_code err)
             else (err, errcode) in
    (Raise (SystemExit (if negb (String.eqb (fst e) "")
                        then TRANSFER_ERROR else 0)),
     mkWorld (log w ++ final_log (fst e) path)
       (written w
        ++ [(path, add_to_dictionary d "error" (PyStr (fst e)) (snd e)
                     PyNone)])).
Proof.
  assert (H : (if negb (String.eqb err "")
               then p <- St.lift (extract_error_info err) ;;
                    St.ret (snd p, fst p)
               else St.ret (err, errcode))%se w
              = (Ok (if negb (String.eqb err "")
                     then (extracted_message err, extracted_code err)
                     else (err, errcode)), w)).
  { destruct (negb (String.eqb err "")); [|reflexivity].
    unfold St.bind, St.lift; now rewrite extract_error_info_total. }
  rewrite (bind_ok _ _ _ _ _ H); clear H.
  destruct (if negb (String.eqb err "")
            then (extracted_message err, extracted_code err)
            else (err, errcode)) as [err' code'].
  cbv zeta; cbn [fst snd]; unfold final_log.
  destruct w as [lg wr].
  destruct (negb (String.eqb err' ""));
    unfold St.bind, write_json, message, St.modify, exit, St.raise, St.ret;
    cbn [log written]; rewrite <- ?app_assoc; reflexivity.
Qed.

Lemma main_eq (args : Args.t) (env : Env) (w : World) :
  main args env w
  = (Raise (SystemExit (exit_code_of args env)),
     mkWorld (log w ++ main_log args env)
       (written w ++ [(report_path args env, report_of args env)])).
Proof.
  unfold main.
  pose proof (get_file_lists_eq (Args.lfns args) (Args.scopes args)
    (Args.filesizes args) (Args.checksums args) (Args.allowlans args)
    (Args.allowwans args) (Args.directaccesslans args)
    (Args.directaccesswans args) (Args.istars args) (Args.accessmodes args)
    (Args.storagetokens args) (Args.guids args) w) as H.
  cbv zeta in H; fold (all_fields args) in H;
    fold (reconciled_args args) in H.
  rewrite (bind_ok _ _ _ _ _ H); clear H.
  set (lists := reconciled_args args).
  set (w1 := add_log w _).
  assert (H : (if negb (List.length (_lfns lists)
                        =? List.length (_scopes lists))%nat
               then message (MsgNotSameLength (List.length (_lfns lists))
                               (List.length (_scopes lists)))
               else St.ret tt) w1
              = (Ok tt, add_log w1 (mismatch_log lists))).
  { unfold mismatch_log; destruct (negb _); [reflexivity|].
    unfold St.ret; now rewrite add_log_nil. }
  rewrite (bind_ok _ _ _ _ _ H); clear H.
  unfold exit_code_of, report_of, main_log, transfer_call, report_path, built.
  fold lists.
  set (kwargs := mkKwargs _ _ _ _ _).
  set (path := os_path_join _ _).
  destruct (Args.eventservicemerge args);
    rewrite (bind_ok _ _ _ _ _ (build_xfiles_eq _ _ _));
    rewrite (bind_ok _ _ _ _ _ (dispatch_eq _ _ _ _ _ _));
    match goal with
    | |- context [transfer ?e ?c ?x ?a ?k] =>
        destruct (transfer e c x a k) as [xs o]
    end;
    cbn [fst snd];
    rewrite (bind_ok _ _ _ _ _ (summarise_eq _ _ _));
    (etransitivity; [apply finish_eq|]);
    unfold global_error; destruct (captured o) as [err errcode];
    cbn [fst snd]; cbv zeta; unfold w1, add_log; cbn [log written];
    rewrite <- !app_assoc; reflexivity.
Qed.

Lemma run_eq (args : Args.t) (env : Env) :
  run args env
  = (Raise (SystemExit (exit_code_of args env)),
     mkWorld (main_log args env)
       [(report_path args env, report_of args env)]).
Proof. unfold run; now rewrite main_eq. Qed.

(** ** The report dictionary *)

Section Dict.
Context {V : Type}.
Implicit Types (d : dict V) (k : string) (v : V).

Lemma dict_get_set_same d k v : dict_get (dict_set d k v) k = Some v.
Proof.
  induction d as [|[k0 v0] d IH]; simpl.
  - now rewrite String.eqb_refl.
  - destruct (String.eqb k0 k) eqn:E; simpl; now rewrite E.
Qed.

Lemma dict_get_set_other d k k' v :
  k' <> k -> dict_get (dict_set d k v) k' = dict_get d k'.
Proof.
  intros Hne; induction d as [|[k0 v0] d IH]; simpl.
  - apply String.eqb_neq in Hne.
    now rewrite String.eqb_sym, Hne.
  - destruct (String.eqb_spec k0 k) as [->|Hk]; simpl.
    + destruct (String.eqb_spec k k') as [->|_]; [now elim Hne|reflexivity].
    + now rewrite IH.
Qed.

Lemma keys_set_in d k v k' :
  In k' (keys (dict_set d k v)) <-> k' = k \/ In k' (keys d).
Proof.
  induction d as [|[k0 v0] d IH]; simpl.
  - intuition congruence.
  - destruct (String.eqb_spec k0 k) as [->|Hk]; simpl.
    + intuition congruence.
    + rewrite IH; intuition congruence.
Qed.

(** Assignment never makes a key appear twice. *)
Lemma keys_set_NoDup d k v : NoDup (keys d) -> NoDup (keys (dict_set d k v)).
Proof.
  induction d as [|[k0 v0] d IH]; simpl; intros H.
  - constructor; [intros []|constructor].
  - inversion H as [|? ? Hnotin Hnd]; subst.
    destruct (String.eqb_spec k0 k) as [->|Hk]; simpl.
    + now constructor.
    + constructor; [|now apply IH].
      rewrite keys_set_in; intros [->|Hin]; [now apply Hk | now apply Hnotin].
Qed.

Lemma key_once d k :
  NoDup (keys d) -> In k (keys d) -> count_occ string_dec (keys d) k = 1%nat.
Proof. intros Hnd; revert k; now apply NoDup_count_occ'. Qed.
End Dict.

Lemma aggregate_NoDup (xfiles : list FileSpec) (d : report) :
  NoDup (keys d) -> NoDup (keys (aggregate xfiles d)).
Proof.
  unfold aggregate; revert d; induction xfiles as [|x xs IH]; intros d H; simpl.
  - exact H.
  - apply IH; unfold add_to_dictionary; now apply keys_set_NoDup.
Qed.

Lemma aggregate_app (xs ys : list FileSpec) (d : report) :
  aggregate (xs ++ ys) d = aggregate ys (aggregate xs d).
Proof. unfold aggregate; apply fold_left_app. Qed.

(** Descriptors with other names leave the entry of a name alone. *)
Lemma aggregate_get_other (xfiles : list FileSpec) (d : report) (k : string) :
  (forall h, In h xfiles -> lfn (fields h) <> k) ->
  dict_get (aggregate xfiles d) k = dict_get d k.
Proof.
  unfold aggregate; revert d; induction xfiles as [|x xs IH]; intros d H; simpl.
  - reflexivity.
  - rewrite IH by (intros h Hh; apply H; now right).
    unfold add_to_dictionary; apply dict_get_set_other.
    intros E; apply (H x); [now left | now symmetry].
Qed.

(** The entry of a name is the outcome of the last descriptor that has it. *)
Lemma aggregate_get_last (before after : list FileSpec) (g : FileSpec)
    (d : report) :
  (forall h, In h after -> lfn (fields h) <> lfn (fields g)) ->
  dict_get (aggregate (before ++ g :: after) d) (lfn (fields g))
  = Some [status g; status_code g; turl g].
Proof.
  intros H.
  rewrite aggregate_app.
  change (aggregate (g :: after) (aggregate before d))
    with (aggregate after
            (add_to_dictionary (aggregate before d) (lfn (fields g))
               (status g) (status_code g) (turl g))).
  rewrite aggregate_get_other by exact H.
  apply dict_get_set_same.
Qed.

(** The report of every run has its keys once each, ["error"] among them. *)
Lemma report_of_NoDup (args : Args.t) (env : Env) :
  NoDup (keys (report_of args env)).
Proof.
  unfold report_of; destruct (transfer_call args env) as [xs o].
  apply keys_set_NoDup, aggregate_NoDup; constructor.
Qed.

Lemma report_of_error (args : Args.t) (env : Env) :
  dict_get (report_of args env) "error"
  = Some [PyStr (fst (global_error (snd (transfer_call args env))));
          snd (global_error (snd (transfer_call args env))); PyNone].
Proof.
  unfold report_of; destruct (transfer_call args env) as [xs o]; simpl snd.
  apply dict_get_set_same.
Qed.

Lemma report_of_error_in (args : Args.t) (env : Env) :
  In "error" (keys (report_of args env)).
Proof.
  unfold report_of; destruct (transfer_call args env) as [xs o].
  unfold add_to_dictionary; rewrite keys_set_in; now left.
Qed.

(** ** Sample runs *)

Example scenario_A :
  run (sample_args "f1,f2" "s,s") done_env
  = (Raise (SystemExit 0),
     mkWorld (main_log (sample_args "f1,f2" "s,s") done_env)
       [("/srv/job/stagein_dictionary.json",
         [("f1", [PyStr "transferred"; PyInt 0; PyStr "g1"]);
          ("f2", [PyStr "transferred"; PyInt 0; PyStr "g2"]);
          ("error", [PyStr ""; PyInt 0; PyNone])])]).
Proof. rewrite run_eq; reflexivity. Qed.

Example scenario_B :
  let env := failing_env "... error code: 3 ... details: timeout" in
  exit_code (run (sample_args "f1,f2" "s,s") env) = Some 12%Z /\
  written (snd (run (sample_args "f1,f2" "s,s") env))
  = [("/srv/job/stagein_dictionary.json",
      [("f1", [PyNone; PyNone; PyNone]);
       ("f2", [PyNone; PyNone; PyNone]);
       ("error", [PyStr "timeout"; PyStr "3"; PyNone])])].
Proof. split; reflexivity. Qed.

(** ** Result aggregation and exit policy *)

Lemma exit_code_run (args : Args.t) (env : Env) :
  exit_code (run args env) = Some (exit_code_of args env).
Proof. now rewrite run_eq. Qed.

Lemma written_run (args : Args.t) (env : Env) :
  written (snd (run args env)) = [(report_path args env, report_of args env)].
Proof. now rewrite run_eq. Qed.

(** C1. The report of every run has exactly one "error" key, whether the
    transfer call returned or raised; when the call returned, the entry is
    ["", 0, None]. *)
Theorem report_has_one_error_entry (args : Args.t) (env : Env) :
  exists rep : report,
    written (snd (run args env)) = [(report_path args env, rep)] /\
    count_occ string_dec (keys rep) "error" = 1%nat /\
    (forall r : pyval,
        snd (transfer_call args env) = Returned r ->
        dict_get rep "error" = Some [PyStr ""; PyInt 0; PyNone]).
Proof.
  exists (report_of args env); split; [apply written_run|split].
  - apply key_once; [apply report_of_NoDup | apply report_of_error_in].
  - intros r Hr; rewrite report_of_error, Hr; reflexivity.
Qed.

Lemma report_has_one_error_entry_witness :
  exists rep : report,
    written (snd (run (sample_args "f1,f2" "s,s") done_env))
    = [("/srv/job/stagein_dictionary.json", rep)] /\
    count_occ string_dec (keys rep) "error" = 1%nat /\
    dict_get rep "error" = Some [PyStr ""; PyInt 0; PyNone].
Proof.
  destruct (report_has_one_error_entry (sample_args "f1,f2" "s,s") done_env)
    as (rep & Hw & Hone & Hok).
  exists rep; split; [exact Hw|split; [exact Hone|]].
  apply (Hok PyNone); reflexivity.
Defined.

Lemma os_path_join_plain (a b : string) :
  a <> "" -> ends_with_sep a = false -> strip_prefix "/" b = None ->
  os_path_join a b = (a ++ "/" ++ b)%string.
Proof.
  intros Ha Hsep Hb; unfold os_path_join.
  apply String.eqb_neq in Ha.
  now rewrite Hb, Ha, Hsep.
Qed.

(** C2. Every run writes the report, once, to the join of the working
    directory and the configured file name (which is
    [<workdir>/<filename>] for a working directory without a trailing slash
    and a relative file name), and then exits: with code 12 exactly when the
    error message stored in the report is not empty, with code 0 exactly
    when it is empty. *)
Theorem report_written_then_exit (args : Args.t) (env : Env) :
  exists (rep : report) (err : string) (errcode : pyval),
    written (snd (run args env))
    = [(os_path_join (Args.workdir args) (stagein_dictionary env), rep)] /\
    (Args.workdir args <> "" ->
     ends_with_sep (Args.workdir args) = false ->
     strip_prefix "/" (stagein_dictionary env) = None ->
     os_path_join (Args.workdir args) (stagein_dictionary env)
     = (Args.workdir args ++ "/" ++ stagein_dictionary env)%string) /\
    dict_get rep "error" = Some [PyStr err; errcode; PyNone] /\
    (exit_code (run args env) = Some 12%Z <-> err <> "") /\
    (exit_code (run args env) = Some 0%Z <-> err = "").
Proof.
  exists (report_of args env),
    (fst (global_error (snd (transfer_call args env)))),
    (snd (global_error (snd (transfer_call args env)))).
  split; [apply written_run|].
  split; [apply os_path_join_plain|].
  split; [apply report_of_error|].
  rewrite exit_code_run; unfold exit_code_of, TRANSFER_ERROR.
  destruct (String.eqb_spec
              (fst (global_error (snd (transfer_call args env)))) "")
    as [E|E]; simpl; split; split; intros H; try congruence; try discriminate.
Qed.

Lemma report_written_then_exit_witness :
  exists (rep : report) (code : pyval),
    written (snd (run (sample_args "f1,f2" "s,s")
                    (failing_env "error code: 7, details: no replica")))
    = [("/srv/job/stagein_dictionary.json", rep)] /\
    dict_get rep "error" = Some [PyStr "no replica"; code; PyNone] /\
    exit_code (run (sample_args "f1,f2" "s,s")
                 (failing_env "error code: 7, details: no replica"))
    = Some 12%Z.
Proof.
  destruct (report_written_then_exit (sample_args "f1,f2" "s,s")
              (failing_env "error code: 7, details: no replica"))
    as (rep & err & code & Hw & Hpath & Herr & H12 & H0).
  exists rep, code.
  rewrite Hw, (Hpath ltac:(discriminate) eq_refl eq_refl).
  assert (E : err = "no replica").
  { rewrite written_run in Hw; inversion Hw; subst rep.
    vm_compute in Herr; congruence. }
  subst err.
  split; [reflexivity|split; [exact Herr|]].
  apply H12; discriminate.
Defined.

Lemma global_error_raised (m : string) :
  global_error (Raised m)
  = if negb (String.eqb m "")
    then (extracted_message m, extracted_code m)
    else ("", PyInt (-1)).
Proof.
  unfold global_error, captured.
  destruct (String.eqb_spec m "") as [->|_]; reflexivity.
Qed.

(** C3. When the transfer call raises with a message that does not contain
    "details: ", the error extraction leaves an empty message: the "error"
    entry of the report has the empty message and the run exits with code 0
    although the dispatch failed.  A run exits with code 12 only when the
    call raised and the message extracted from what it raised is not
    empty. *)
Theorem failure_without_details_exits_zero (args : Args.t) (env : Env) :
  (forall m : string,
      snd (transfer_call args env) = Raised m ->
      contains "details: " m = false ->
      (exists code : pyval, extract_error_info m = Ok (code, "")) /\
      (exists (rep : report) (errcode : pyval),
          written (snd (run args env)) = [(report_path args env, rep)] /\
          dict_get rep "error" = Some [PyStr ""; errcode; PyNone]) /\
      exit_code (run args env) = Some 0%Z) /\
  (exit_code (run args env) = Some 12%Z ->
   exists (m : string) (code : pyval) (detail : string),
     snd (transfer_call args env) = Raised m /\
     extract_error_info m = Ok (code, detail) /\
     detail <> "").
Proof.
  split.
  - intros m Hm Hd.
    assert (E : fst (global_error (Raised m)) = "").
    { rewrite global_error_raised.
      destruct (negb (String.eqb m "")); [|reflexivity].
      now apply extracted_message_absent. }
    split; [|split].
    + exists (extracted_code m).
      now rewrite extract_error_info_total, (extracted_message_absent m Hd).
    + exists (report_of args env), (snd (global_error (Raised m))).
      split; [apply written_run|].
      now rewrite report_of_error, Hm, E.
    + rewrite exit_code_run; unfold exit_code_of.
      now rewrite Hm, E.
  - rewrite exit_code_run; unfold exit_code_of, TRANSFER_ERROR.
    destruct (snd (transfer_call args env)) as [r|m]; [discriminate|].
    rewrite global_error_raised.
    destruct (String.eqb_spec m "") as [->|Hm]; [discriminate|]; simpl.
    destruct (String.eqb_spec (extracted_message m) "") as [E|E];
      [discriminate|]; intros _.
    exists m, (extracted_code m), (extracted_message m).
    split; [reflexivity|split; [apply extract_error_info_total|exact E]].
Qed.

Lemma failure_without_details_exits_zero_witness :
  exit_code (run (sample_args "f1,f2" "s,s")
               (failing_env "copy command failed, error code: 5"))
  = Some 0%Z.
Proof.
  apply (proj1 (failure_without_details_exits_zero
                  (sample_args "f1,f2" "s,s")
                  (failing_env "copy command failed, error code: 5"))
           "copy command failed, error code: 5");
    reflexivity.
Defined.

(** C6, as the specification has it, fails for the reserved name: two
    descriptors named "error" are both overwritten by the global error
    entry, so the report does not carry the later descriptor's outcome. *)
Lemma duplicate_error_name_not_last_outcome :
  fst (transfer_call error_twice done_env) = [earlier_error; later_error] /\
  lfn (fields earlier_error) = lfn (fields later_error) /\
  written (snd (run error_twice done_env))
  = [("/srv/job/stagein_dictionary.json",
      [("error", [PyStr ""; PyInt 0; PyNone])])] /\
  dict_get (report_of error_twice done_env) (lfn (fields later_error))
  <> Some [status later_error; status_code later_error; turl later_error].
Proof.
  split; [reflexivity|].
  split; [reflexivity|].
  split; [reflexivity|].
  vm_compute; intros H; discriminate H.
Qed.

(** C6, amended.  When two descriptors share a logical file name other than
    the reserved name "error", the report has that name once and maps it to
    the outcome of the later descriptor (the last one of that name) only. *)
Theorem duplicate_names_last_wins (args : Args.t) (env : Env)
    (before after : list FileSpec) (f g : FileSpec) :
  fst (transfer_call args env) = before ++ g :: after ->
  In f before ->
  lfn (fields f) = lfn (fields g) ->
  (forall h, In h after -> lfn (fields h) <> lfn (fields g)) ->
  lfn (fields g) <> "error" ->
  exists rep : report,
    written (snd (run args env)) = [(report_path args env, rep)] /\
    dict_get rep (lfn (fields g)) = Some [status g; status_code g; turl g] /\
    count_occ string_dec (keys rep) (lfn (fields g)) = 1%nat.
Proof.
  intros Hxs _ _ Hlast Hne.
  exists (report_of args env); split; [apply written_run|].
  assert (Hget : dict_get (report_of args env) (lfn (fields g))
                 = Some [status g; status_code g; turl g]).
  { unfold report_of.
    destruct (transfer_call args env) as [xs o]; simpl in Hxs; subst xs.
    unfold add_to_dictionary at 1.
    rewrite dict_get_set_other by exact Hne.
    now apply aggregate_get_last. }
  split; [exact Hget|].
  apply key_once; [apply report_of_NoDup|].
  revert Hget; generalize (report_of args env) (lfn (fields g)).
  intros d k; induction d as [|[k0 v0] d IH]; simpl; [discriminate|].
  destruct (String.eqb_spec k0 k) as [->|_]; [now left|].
  intros H; right; now apply IH.
Qed.

Lemma duplicate_names_last_wins_witness :
  exists rep : report,
    written (snd (run (sample_args "f1,f1" "s,s") done_env))
    = [("/srv/job/stagein_dictionary.json", rep)] /\
    dict_get rep "f1" = Some [PyStr "transferred"; PyInt 0; PyStr "g2"] /\
    count_occ string_dec (keys rep) "f1" = 1%nat.
Proof.
  set (args := sample_args "f1,f1" "s,s").
  set (xs := fst (transfer_call args done_env)).
  exact (duplicate_names_last_wins args done_env
           [nth 0 xs (FileSpec_new "" (mkFileDict "" "" "" PyNone "" PyNone
                                         PyNone PyNone "" PyNone PyNone "" ""))]
           []
           (nth 0 xs (FileSpec_new "" (mkFileDict "" "" "" PyNone "" PyNone
                                         PyNone PyNone "" PyNone PyNone "" "")))
           (nth 1 xs (FileSpec_new "" (mkFileDict "" "" "" PyNone "" PyNone
                                         PyNone PyNone "" PyNone PyNone "" "")))
           eq_refl (or_introl eq_refl) eq_refl
           (fun h (H : In h []) => match H with end)
           ltac:(discriminate)).
Defined.

(** ** List reconciler and descriptor builder in a run *)

(** C5, as the specification has it, fails: when the split of the scopes
    raises, the names split before it are returned, not an empty list. *)
Lemma get_file_lists_keeps_parsed_prefix :
  split None
  = Raise (AttributeError "'NoneType' object has no attribute 'split'") /\
  fst scopes_absent
  = Ok (mkFileLists ["a"; "b"] [] [] [] [] [] [] [] [] [] [] []) /\
  mkFileLists ["a"; "b"] [] [] [] [] [] [] [] [] [] [] [] <> no_lists.
Proof.
  split; [reflexivity|split; [reflexivity|]].
  intros H; discriminate H.
Qed.

Lemma no_descriptor_when_absent (args : Args.t) :
  forallb present (all_fields args) = false -> built args = [].
Proof.
  intros H.
  apply length_zero_iff_nil.
  unfold built; rewrite descriptors_length.
  assert (E : _guids (reconciled_args args) = []).
  { unfold reconciled_args, reconciled; cbn [_guids]; unfold kept.
    fold (all_fields args); now rewrite H. }
  unfold shortest; rewrite E; simpl List.length; lia.
Qed.

(** C5, amended.  [get_file_lists] never raises.  When the split of a field
    raises (the field is not a string), the exception is caught and logged,
    the lists assigned before that field keep their values, and the list of
    that field and of every field after it are empty ([reconciled]); the run
    goes on with no descriptor and ends in an [exit] after the report is
    written. *)
Theorem get_file_lists_degrades
    (lfns scopes filesizes checksums allowlans allowwans directaccesslans
     directaccesswans istars accessmodes storagetokens guids : option string)
    (w : World) :
  let all := [lfns; scopes; filesizes; checksums; allowlans; allowwans;
              directaccesslans; directaccesswans; istars; accessmodes;
              storagetokens; guids] in
  let r := get_file_lists lfns scopes filesizes checksums allowlans allowwans
             directaccesslans directaccesswans istars accessmodes
             storagetokens guids w in
  fst r = Ok (reconciled lfns scopes filesizes checksums allowlans allowwans
                directaccesslans directaccesswans istars accessmodes
                storagetokens guids) /\
  existsb is_exception_caught (skipn (List.length (log w)) (log (snd r)))
  = negb (forallb present all) /\
  (forall (args : Args.t) (env : Env),
      all_fields args = all ->
      forallb present all = false ->
      built args = [] /\
      (exists rep : report,
          written (snd (run args env)) = [(report_path args env, rep)]) /\
      (exit_code (run args env) = Some 0%Z
       \/ exit_code (run args env) = Some 12%Z)).
Proof.
  intros all r; unfold r.
  pose proof (get_file_lists_eq lfns scopes filesizes checksums allowlans
                allowwans directaccesslans directaccesswans istars
                accessmodes storagetokens guids w) as H.
  cbv zeta in H; fold all in H; rewrite H; clear H.
  split; [reflexivity|split].
  - unfold add_log; cbn [snd log].
    rewrite skipn_app, skipn_all, Nat.sub_diag; cbn [skipn app].
    rewrite existsb_app; unfold caught_log.
    destruct (forallb present all); reflexivity.
  - intros args env Hall Habs; rewrite <- Hall in Habs.
    split; [now apply no_descriptor_when_absent|split].
    + exists (report_of args env); apply written_run.
    + rewrite exit_code_run; unfold exit_code_of, TRANSFER_ERROR.
      destruct (negb _); [now right | now left].
Qed.

Lemma get_file_lists_degrades_witness : built scopes_absent_args = [].
Proof.
  apply (proj2 (proj2 (get_file_lists_degrades (Some "a,b") None (Some "1,2")
                         (Some "c1,c2") (Some "True,True") (Some "True,True")
                         (Some "False,False") (Some "False,False")
                         (Some "False,False") (Some "copy,copy") (Some "T,T")
                         (Some "g1,g2") empty_world))
           scopes_absent_args done_env eq_refl eq_refl).
Defined.

Lemma existsb_map_false {A B} (p : B -> bool) (g : A -> B) (l : list A) :
  (forall x, p (g x) = false) -> existsb p (map g l) = false.
Proof.
  intros H; induction l as [|x l IH]; simpl; [reflexivity|].
  now rewrite H, IH.
Qed.

(** The length check is the only place that logs a length mismatch, and it
    compares the names with the scopes. *)
Lemma mismatch_logged (args : Args.t) (env : Env) :
  existsb is_not_same_length (main_log args env)
  = negb (List.length (_lfns (reconciled_args args))
          =? List.length (_scopes (reconciled_args args)))%nat.
Proof.
  unfold main_log; rewrite !existsb_app.
  assert (E1 : existsb is_not_same_length (caught_log (all_fields args))
               = false).
  { unfold caught_log; now destruct (forallb present (all_fields args)). }
  assert (E2 : existsb is_not_same_length
                 (files_log (Args.workdir args) (reconciled_args args))
               = false).
  { unfold files_log; now apply existsb_map_false. }
  assert (E3 : existsb is_not_same_length
                 (dispatch_log (snd (transfer_call args env))) = false).
  { now destruct (snd (transfer_call args env)). }
  assert (E4 : existsb is_not_same_length
                 (summary_log (fst (transfer_call args env))) = false).
  { unfold summary_log; destruct (fst (transfer_call args env)) as [|x xs];
      [reflexivity|].
    cbn [existsb is_not_same_length orb].
    now apply existsb_map_false. }
  assert (E5 : existsb is_not_same_length
                 (final_log
                    (fst (global_error (snd (transfer_call args env))))
                    (report_path args env)) = false).
  { unfold final_log; now destruct (negb _). }
  rewrite E1, E2, E3, E4, E5.
  unfold mismatch_log.
  destruct (negb _); reflexivity.
Qed.

(** C7, as the specification has it, fails: with three names, three scopes
    and two sizes the lists differ in length, two descriptors are built, and
    no mismatch is logged. *)
Lemma mismatch_of_sizes_not_logged :
  List.length (_lfns (reconciled_args short_sizes)) = 3%nat /\
  List.length (_filesizes (reconciled_args short_sizes)) = 2%nat /\
  List.length (built short_sizes) = 2%nat /\
  existsb is_not_same_length (log (snd (run short_sizes done_env))) = false.
Proof. repeat split; reflexivity. Qed.

(** C7, amended.  Whatever the lengths of the lists, the loop builds one
    descriptor per position up to the length of the shortest list and does
    not raise, and the run ends in an [exit] after the report is written.
    The mismatch is logged exactly when the names and the scopes differ in
    number; the other lists are not compared. *)
Theorem mismatched_lists_truncate (args : Args.t) (env : Env) (w : World) :
  let lists := reconciled_args args in
  (exists (xfiles : list FileSpec) (w' : World),
      build_xfiles (Args.workdir args) lists w = (Ok xfiles, w') /\
      List.length xfiles = shortest lists /\
      forall i : nat,
        (i < shortest lists)%nat ->
        nth_error xfiles i
        = Some (mkFileSpec "input"
                  (mkFileDict
                     (nth i (_scopes lists) "") (nth i (_lfns lists) "")
                     (Args.workdir args)
                     (nth i (_filesizes lists) PyNone)
                     (nth i (_checksums lists) "")
                     (nth i (_allowlans lists) PyNone)
                     (nth i (_allowwans lists) PyNone)
                     (nth i (_directaccesslans lists) PyNone)
                     (nth i (_guids lists) "")
                     (nth i (_directaccesswans lists) PyNone)
                     (nth i (_istars lists) PyNone)
                     (nth i (_accessmodes lists) "")
                     (nth i (_storagetokens lists) ""))
                  PyNone PyNone PyNone)) /\
  (exit_code (run args env) = Some 0%Z
   \/ exit_code (run args env) = Some 12%Z) /\
  (List.length (_lfns lists) <> List.length (_scopes lists) ->
   In (MsgNotSameLength (List.length (_lfns lists))
         (List.length (_scopes lists)))
     (log (snd (run args env)))) /\
  (List.length (_lfns lists) = List.length (_scopes lists) ->
   existsb is_not_same_length (log (snd (run args env))) = false).
Proof.
  intros lists; split; [|split; [|split]].
  - exists (descriptors (Args.workdir args) lists),
      (add_log w (files_log (Args.workdir args) lists)).
    split; [apply build_xfiles_eq|].
    split; [apply descriptors_length|].
    intros i Hi; now rewrite (descriptors_nth _ lists i Hi).
  - rewrite exit_code_run; unfold exit_code_of, TRANSFER_ERROR.
    destruct (negb _); [now right | now left].
  - intros Hne; rewrite run_eq; cbn [snd log]; unfold main_log.
    apply in_or_app; right; apply in_or_app; right;
      apply in_or_app; left.
    unfold mismatch_log; fold lists.
    apply Nat.eqb_neq in Hne; rewrite Hne; now left.
  - intros Heq; rewrite run_eq; cbn [snd log].
    rewrite mismatch_logged; fold lists.
    apply Nat.eqb_eq in Heq; now rewrite Heq.
Qed.

Lemma mismatched_lists_truncate_witness :
  In (MsgNotSameLength 3 2) (log (snd (run short_scopes done_env))).
Proof.
  apply (proj1 (proj2 (proj2 (mismatched_lists_truncate short_scopes done_env
                                empty_world)))).
  vm_compute; intros H; discriminate H.
Defined.

(** C8. For reconciled lists that all have N elements, the loop builds
    exactly N descriptors; the i-th one carries the i-th element of every
    list, the working directory and the type "input". *)
Theorem descriptors_aligned (args_workdir : string) (lists : FileLists)
    (N : nat) (w : World) :
  List.length (_lfns lists) = N ->
  List.length (_scopes lists) = N ->
  List.length (_filesizes lists) = N ->
  List.length (_checksums lists) = N ->
  List.length (_allowlans lists) = N ->
  List.length (_allowwans lists) = N ->
  List.length (_directaccesslans lists) = N ->
  List.length (_directaccesswans lists) = N ->
  List.length (_istars lists) = N ->
  List.length (_accessmodes lists) = N ->
  List.length (_storagetokens lists) = N ->
  List.length (_guids lists) = N ->
  exists (xfiles : list FileSpec) (w' : World),
    build_xfiles args_workdir lists w = (Ok xfiles, w') /\
    List.length xfiles = N /\
    forall i : nat,
      (i < N)%nat ->
      nth_error xfiles i
      = Some (mkFileSpec "input"
                (mkFileDict
                   (nth i (_scopes lists) "") (nth i (_lfns lists) "")
                   args_workdir
                   (nth i (_filesizes lists) PyNone)
                   (nth i (_checksums lists) "")
                   (nth i (_allowlans lists) PyNone)
                   (nth i (_allowwans lists) PyNone)
                   (nth i (_directaccesslans lists) PyNone)
                   (nth i (_guids lists) "")
                   (nth i (_directaccesswans lists) PyNone)
                   (nth i (_istars lists) PyNone)
                   (nth i (_accessmodes lists) "")
                   (nth i (_storagetokens lists) ""))
                PyNone PyNone PyNone).
Proof.
  intros H1 H2 H3 H4 H5 H6 H7 H8 H9 H10 H11 H12.
  assert (Hs : shortest lists = N) by (unfold shortest; lia).
  exists (descriptors args_workdir lists),
    (add_log w (files_log args_workdir lists)).
  split; [apply build_xfiles_eq|].
  split; [now rewrite descriptors_length|].
  intros i Hi; rewrite <- Hs in Hi.
  now rewrite (descriptors_nth args_workdir lists i Hi).
Qed.

Lemma descriptors_aligned_witness :
  exists (xfiles : list FileSpec) (w' : World),
    build_xfiles "/srv/job" (reconciled_args (sample_args "f1,f2" "s1,s2"))
      empty_world = (Ok xfiles, w') /\
    List.length xfiles = 2%nat /\
    nth_error xfiles 1
    = Some (mkFileSpec "input"
              (mkFileDict "s2" "f2" "/srv/job" (PyInt 20) "ad:2"
                 (PyBool false) (PyBool true) PyNone "g2" PyNone
                 (PyBool false) "direct" "DATADISK")
              PyNone PyNone PyNone).
Proof.
  destruct (descriptors_aligned "/srv/job"
              (reconciled_args (sample_args "f1,f2" "s1,s2")) 2 empty_world
              eq_refl eq_refl eq_refl eq_refl eq_refl eq_refl eq_refl eq_refl
              eq_refl eq_refl eq_refl eq_refl)
    as (xfiles & w' & Hrun & Hlen & Hnth).
  exists xfiles, w'; split; [exact Hrun|split; [exact Hlen|]].
  exact (Hnth 1%nat ltac:(lia)).
Defined.

(* ================================================================== *)
(** * Further properties *)

(** ** [str2bool] *)

Lemma lower_char_idem (c : ascii) : lower_char (lower_char c) = lower_char c.
Proof. destruct c as [[] [] [] [] [] [] [] []]; vm_compute; reflexivity. Qed.

Lemma lower_idem (s : string) : lower (lower s) = lower s.
Proof.
  induction s as [|c s IH]; simpl; [reflexivity|].
  now rewrite lower_char_idem, IH.
Qed.

(** X1. [str2bool] ignores the case of its argument: two strings with the
    same lower-case form get the same answer, lower-casing the argument
    first changes nothing, and a string is either accepted or rejected with
    [ArgumentTypeError], never with anything else. *)
Theorem str2bool_case_insensitive (s t : string) :
  (lower s = lower t -> str2bool (PyStr s) = str2bool (PyStr t)) /\
  str2bool (PyStr (lower s)) = str2bool (PyStr s) /\
  (forall e : cli_exn,
      str2bool (PyStr s) = Rejected e ->
      e = ArgumentTypeError "Boolean value expected.").
Proof.
  split; [|split].
  - intros H; unfold str2bool; now rewrite H.
  - unfold str2bool; now rewrite lower_idem.
  - intros e; unfold str2bool.
    destruct (str_in (lower s) ["yes"; "true"; "t"; "y"; "1"]);
      [discriminate|].
    destruct (str_in (lower s) ["no"; "false"; "f"; "n"; "0"]);
      [discriminate|].
    intros H; now inversion H.
Qed.

Lemma str2bool_case_insensitive_witness :
  str2bool (PyStr "YeS") = str2bool (PyStr "yEs").
Proof.
  apply (proj1 (str2bool_case_insensitive "YeS" "yEs")); reflexivity.
Defined.

(** X2. [str2bool] agrees with the list coercion on the tokens the latter
    turns into booleans, and rejects the tokens it turns into [None]. *)
Theorem str2bool_agrees_with_str_to_bool_list (s : string) :
  (forall b : bool,
      str_to_bool_list [PyStr s] = [PyBool b] ->
      str2bool (PyStr s) = Parsed b) /\
  (str_to_bool_list [PyStr s] = [PyNone] ->
   str2bool (PyStr s)
   = Rejected (ArgumentTypeError "Boolean value expected.")).
Proof.
  unfold str_to_bool_list; cbn [map]; rewrite changes_get.
  unfold coerce_bool_spec.
  destruct (String.eqb_spec s "True") as [->|_].
  { split; [intros b H; inversion H; reflexivity|discriminate]. }
  destruct (String.eqb_spec s "False") as [->|_].
  { split; [intros b H; inversion H; reflexivity|discriminate]. }
  destruct (String.eqb_spec s "None") as [->|_].
  { split; [discriminate|reflexivity]. }
  destruct (String.eqb_spec s "NULL") as [->|_].
  { split; [discriminate|reflexivity]. }
  split; [intros b H|intros H]; discriminate H.
Qed.

Lemma str2bool_agrees_with_str_to_bool_list_witness :
  str2bool (PyStr "False") = Parsed false.
Proof.
  apply (proj1 (str2bool_agrees_with_str_to_bool_list "False")); reflexivity.
Defined.

(** ** [verify_args] *)

Lemma first_falsy_bound (l : list (option string)) (i : nat) :
  first_falsy l = Some i -> (i < List.length l)%nat.
Proof.
  revert i; induction l as [|x l IH]; intros i; simpl; [discriminate|].
  destruct (falsy x).
  - intros H; inversion H; lia.
  - destruct (first_falsy l) as [j|]; simpl; [|discriminate].
    intros H; inversion H; subst; specialize (IH j eq_refl); lia.
Qed.

Lemma first_falsy_none (l : list (option string)) :
  first_falsy l = None <-> forallb (fun x => negb (falsy x)) l = true.
Proof.
  induction l as [|x l IH]; simpl; [tauto|].
  destruct (falsy x); simpl.
  - split; discriminate.
  - rewrite <- IH; destruct (first_falsy l); simpl; split; congruence.
Qed.

(** The result of [verify_args] in closed form. *)
Lemma verify_args_eq (logger : bool) (getcwd : string) (args : Namespace.t)
    (c : Console) :
  exists c' : Console,
    verify_args logger getcwd (args, c)
    = (Ok (match first_falsy (required args) with
           | None => 0%Z
           | Some i => (2 + Z.of_nat i)%Z
           end),
       (if falsy (Namespace.workdir args)
        then Namespace.set_workdir (Some getcwd) args else args, c')) /\
    match first_falsy (required args) with
    | None => c' = c
    | Some _ =>
        exists m : string,
          c' = if logger then mkConsole (printed c) (logger_info c ++ [m])
               else mkConsole (printed c ++ [m]) (logger_info c)
    end.
Proof.
  destruct args as [wd qn sc lf et ls rs pu ji ti jd].
  unfold verify_args, required, St.bind, St.on_fst, St.on_snd, St.modify,
    get_state, St.ret, message_text; cbn [fst snd Namespace.workdir
    Namespace.queuename Namespace.scopes Namespace.lfns Namespace.eventtype
    Namespace.localsite Namespace.remotesite Namespace.produserid
    Namespace.jobid Namespace.taskid Namespace.jobdefinitionid first_falsy].
  destruct (falsy wd); cbn [Namespace.set_workdir Namespace.workdir
    Namespace.queuename Namespace.scopes Namespace.lfns Namespace.eventtype
    Namespace.localsite Namespace.remotesite Namespace.produserid
    Namespace.jobid Namespace.taskid Namespace.jobdefinitionid].
  all: destruct (falsy qn);
    [eexists; split; [reflexivity|destruct logger; eexists; reflexivity]|].
  all: destruct (falsy sc);
    [eexists; split; [reflexivity|destruct logger; eexists; reflexivity]|].
  all: destruct (falsy lf);
    [eexists; split; [reflexivity|destruct logger; eexists; reflexivity]|].
  all: destruct (falsy et);
    [eexists; split; [reflexivity|destruct logger; eexists; reflexivity]|].
  all: destruct (falsy ls);
    [eexists; split; [reflexivity|destruct logger; eexists; reflexivity]|].
  all: destruct (falsy rs);
    [eexists; split; [reflexivity|destruct logger; eexists; reflexivity]|].
  all: destruct (falsy pu);
    [eexists; split; [reflexivity|destruct logger; eexists; reflexivity]|].
  all: destruct (falsy ji);
    [eexists; split; [reflexivity|destruct logger; eexists; reflexivity]|].
  all: destruct (falsy ti);
    [eexists; split; [reflexivity|destruct logger; eexists; reflexivity]|].
  all: destruct (falsy jd);
    [eexists; split; [reflexivity|destruct logger; eexists; reflexivity]|].
  all: eexists; split; reflexivity.
Qed.

(** X3. [verify_args] returns 0 exactly when the ten required attributes
    are all set (not [None], not empty); otherwise it returns the code of
    the first one that is not, in the order queuename, scopes, lfns,
    eventtype, localsite, remotesite, produserid, jobid, taskid,
    jobdefinitionid, which is 2 plus its position: a code between 2 and 11,
    never [GENERAL_ERROR] or [TRANSFER_ERROR].  It never raises. *)
Theorem verify_args_code (logger : bool) (getcwd : string)
    (args : Namespace.t) (c : Console) :
  exists (code : Z) (st : Namespace.t * Console),
    verify_args logger getcwd (args, c) = (Ok code, st) /\
    (code = 0%Z <-> forallb (fun x => negb (falsy x)) (required args) = true) /\
    (forall i : nat,
        first_falsy (required args) = Some i -> code = (2 + Z.of_nat i)%Z) /\
    (code = 0%Z \/ (NO_QUEUENAME <= code <= NO_JOBDEFINITIONID)%Z) /\
    code <> GENERAL_ERROR /\ code <> TRANSFER_ERROR.
Proof.
  destruct (verify_args_eq logger getcwd args c) as (c' & E & _).
  eexists _, _; split; [exact E|].
  pose proof (first_falsy_bound (required args)) as Hb.
  pose proof (first_falsy_none (required args)) as Hn.
  unfold NO_QUEUENAME, NO_JOBDEFINITIONID, GENERAL_ERROR, TRANSFER_ERROR.
  destruct (first_falsy (required args)) as [i|].
  - specialize (Hb i eq_refl); cbn [required List.length] in Hb.
    split; [split; [lia|intros H; apply Hn in H; discriminate]|].
    split; [intros j Hj; inversion Hj; reflexivity|].
    split; [right; lia|split; lia].
  - split; [split; [intros _; now apply Hn|reflexivity]|].
    split; [discriminate|].
    split; [now left|split; discriminate].
Qed.

Lemma verify_args_code_witness :
  exists st : Namespace.t * Console,
    verify_args true "/srv/job"
      (Namespace.mk None (Some "Q") (Some "s") None (Some "e") (Some "l")
         (Some "r") (Some "u") (Some "1") (Some "2") (Some "3"),
       mkConsole [] [])
    = (Ok NO_LFNS, st).
Proof.
  destruct (verify_args_code true "/srv/job"
              (Namespace.mk None (Some "Q") (Some "s") None (Some "e")
                 (Some "l") (Some "r") (Some "u") (Some "1") (Some "2")
                 (Some "3"))
              (mkConsole [] []))
    as (code & st & E & _ & Hfirst & _).
  exists st; rewrite E, (Hfirst 2%nat eq_refl); reflexivity.
Defined.

(** X4. Whatever [verify_args] returns, it has first replaced a working
    directory that is not set by the current directory and changed no other
    attribute; it emits no message when it returns 0 and exactly one
    otherwise, through [logger.info] when a logger is set and through
    [print] when none is. *)
Theorem verify_args_effects (logger : bool) (getcwd : string)
    (args : Namespace.t) (c : Console) :
  exists (code : Z) (args' : Namespace.t) (c' : Console),
    verify_args logger getcwd (args, c) = (Ok code, (args', c')) /\
    Namespace.workdir args'
    = (if falsy (Namespace.workdir args) then Some getcwd
       else Namespace.workdir args) /\
    required args' = required args /\
    (code = 0%Z -> c' = c) /\
    (code <> 0%Z ->
     exists m : string,
       c' = if logger then mkConsole (printed c) (logger_info c ++ [m])
            else mkConsole (printed c ++ [m]) (logger_info c)).
Proof.
  destruct (verify_args_eq logger getcwd args c) as (c' & E & Hc).
  eexists _, _, c'; split; [exact E|].
  split; [now destruct (falsy (Namespace.workdir args))|].
  split; [now destruct (falsy (Namespace.workdir args))|].
  destruct (first_falsy (required args)) as [i|].
  - split; [lia|intros _; exact Hc].
  - split; [intros _; exact Hc|intros H; now elim H].
Qed.

Lemma verify_args_effects_witness :
  exists (code : Z) (args' : Namespace.t) (c' : Console),
    verify_args false "/srv/job"
      (Namespace.mk (Some "") (Some "Q") (Some "s") (Some "f") (Some "e")
         (Some "l") (Some "r") (Some "u") (Some "1") (Some "2") (Some "3"),
       mkConsole [] [])
    = (Ok code, (args', c')) /\
    Namespace.workdir args' = Some "/srv/job" /\
    c' = mkConsole [] [].
Proof.
  destruct (verify_args_effects false "/srv/job"
              (Namespace.mk (Some "") (Some "Q") (Some "s") (Some "f")
                 (Some "e") (Some "l") (Some "r") (Some "u") (Some "1")
                 (Some "2") (Some "3"))
              (mkConsole [] []))
    as (code & args' & c' & E & Hwd & _ & Hquiet & _).
  exists code, args', c'; split; [exact E|split; [exact Hwd|]].
  apply Hquiet.
  vm_compute in E; inversion E; reflexivity.
Defined.

(** ** [Job] *)

Lemma remove_all_from_is_replace (old : string) (k : nat) (s : string) :
  remove_all_from old k s = replace_from old "" k s.
Proof.
  revert k; induction s as [|c s IH]; intros k; [reflexivity|].
  cbn [remove_all_from replace_from].
  destruct k; [|apply IH].
  destruct (strip_prefix old (String c s)); [apply IH|now rewrite IH].
Qed.

Lemma replace_absent (old new s : string) :
  contains old s = false -> replace old new s = s.
Proof.
  unfold replace; induction s as [|c s IH]; [reflexivity|].
  cbn [contains replace_from].
  destruct (strip_prefix old (String c s)); [discriminate|].
  intros H; now rewrite IH.
Qed.

(** Where the output of the decoding starts with "20", so does the input. *)
Lemma decoded_starts_20 (s : string) :
  strip_prefix "20" (replace_from "%20" " " 0 s) <> None ->
  strip_prefix "20" s <> None.
Proof.
  destruct s as [|d s]; [intros H; exact H|].
  cbn [replace_from].
  destruct (strip_prefix "%20" (String d s)) eqn:E1.
  { intros H; elim H; reflexivity. }
  cbn [strip_prefix].
  destruct (Ascii.eqb "2" d); [|intros H; exact H].
  destruct s as [|e s]; [intros H; exact H|].
  cbn [replace_from].
  destruct (strip_prefix "%20" (String e s)) eqn:E2.
  { intros H; elim H; reflexivity. }
  cbn [strip_prefix].
  destruct (Ascii.eqb "0" e); [discriminate|intros H; exact H].
Qed.

Lemma decoded_has_no_escape (s : string) (k : nat) :
  contains "%20" (replace_from "%20" " " k s) = false.
Proof.
  revert k; induction s as [|c s IH]; intros k; [reflexivity|].
  cbn [replace_from].
  destruct k as [|k]; [|apply IH].
  destruct (strip_prefix "%20" (String c s)) eqn:E.
  - change (" " ++ replace_from "%20" " " (String.length "%20" - 1) s)%string
      with (String " " (replace_from "%20" " " 2 s)).
    cbn [contains]; change (strip_prefix "%20" (String " " ?x)) with (@None string).
    apply IH.
  - cbn [contains].
    destruct (strip_prefix "%20" (String c (replace_from "%20" " " 0 s)))
      eqn:E'; [|apply IH].
    exfalso; revert E E'; cbn [strip_prefix].
    destruct (Ascii.eqb "%" c); [|discriminate].
    intros E E'.
    apply (decoded_starts_20 s);
      [cbn [strip_prefix]; rewrite E'; discriminate|exact E].
Qed.

(** X5. The user id of a [Job] never contains the escape "%20", whatever it
    was built from; the other three attributes are stored as given, and
    building a job again from the attributes of a job gives the same job. *)
Theorem Job_produserid_has_no_escape (produserid jobid taskid jobdefinitionid
    : string) :
  let job := Job.init produserid jobid taskid jobdefinitionid in
  contains "%20" (Job.produserid job) = false /\
  Job.jobid job = jobid /\
  Job.taskid job = taskid /\
  Job.jobdefinitionid job = jobdefinitionid /\
  Job.init (Job.produserid job) (Job.jobid job) (Job.taskid job)
    (Job.jobdefinitionid job) = job.
Proof.
  cbv zeta; unfold Job.init; cbn [Job.produserid Job.jobid Job.taskid
    Job.jobdefinitionid].
  assert (H : contains "%20" (replace "%20" " " produserid) = false)
    by apply decoded_has_no_escape.
  repeat split; [exact H|].
  now rewrite (replace_absent _ _ _ H).
Qed.

Example Job_sample :
  Job.init "John%20Doe%20%2020" "1" "2" "3" = Job.mk "John Doe  20" "1" "2" "3".
Proof. reflexivity. Qed.

(** X6. A user id without "%20" is stored unchanged. *)
Theorem Job_init_plain (produserid jobid taskid jobdefinitionid : string) :
  contains "%20" produserid = false ->
  Job.init produserid jobid taskid jobdefinitionid
  = Job.mk produserid jobid taskid jobdefinitionid.
Proof. intros H; unfold Job.init; now rewrite replace_absent. Qed.

Lemma Job_init_plain_witness :
  Job.init "jdoe@cern.ch" "1" "2" "3" = Job.mk "jdoe@cern.ch" "1" "2" "3".
Proof. apply Job_init_plain; reflexivity. Defined.

(** ** Error extractor: what is found, and where *)

Lemma strip_prefix_app (p s r : string) :
  strip_prefix p s = Some r -> s = (p ++ r)%string.
Proof.
  revert s; induction p as [|a p IH]; intros s; simpl.
  - intros H; now inversion H.
  - destruct s as [|b s]; [discriminate|].
    destruct (Ascii.eqb_spec a b) as [->|_]; [|discriminate].
    intros H; now rewrite (IH s H).
Qed.

Lemma strip_prefix_self (p r : string) : strip_prefix p (p ++ r) = Some r.
Proof.
  induction p as [|a p IH]; simpl; [reflexivity|].
  now rewrite Ascii.eqb_refl.
Qed.

Lemma take_while_forall (p : ascii -> bool) (s : string) :
  string_forall p (take_while p s) = true.
Proof.
  induction s as [|c s IH]; simpl; [reflexivity|].
  destruct (p c) eqn:E; simpl; [now rewrite E|reflexivity].
Qed.

Lemma take_while_split (p : ascii -> bool) (s : string) :
  exists rest : string,
    s = (take_while p s ++ rest)%string /\
    char_is p (first_char rest) = false.
Proof.
  induction s as [|c s (rest & E & H)]; simpl.
  - exists ""; split; reflexivity.
  - destruct (p c) eqn:Ec.
    + exists rest; split; [simpl; now rewrite <- E|exact H].
    + exists (String c s); split; [reflexivity|exact Ec].
Qed.

(** A match of [lit(C+)] at the start of [s], spelled out. *)
Lemma match_here_sound lit cls s m :
  match_here lit cls s = Some m ->
  exists g rest : string,
    s = (lit ++ g ++ rest)%string /\
    groups m = [(lit ++ g)%string; g] /\
    g <> "" /\
    string_forall cls g = true /\
    char_is cls (first_char rest) = false.
Proof.
  unfold match_here.
  destruct (strip_prefix lit s) as [after|] eqn:E; [|discriminate].
  destruct (String.eqb_spec (take_while cls after) "") as [|Hne];
    [discriminate|].
  intros H; inversion H; subst m; clear H.
  destruct (take_while_split cls after) as (rest & Ea & Hr).
  exists (take_while cls after), rest.
  split; [rewrite <- Ea; now apply strip_prefix_app|].
  split; [reflexivity|].
  split; [exact Hne|].
  split; [apply take_while_forall|exact Hr].
Qed.

Lemma match_here_digit lit cls c rest :
  match_here lit cls (lit ++ String c rest) = None -> cls c = false.
Proof.
  unfold match_here; rewrite strip_prefix_self; simpl.
  destruct (cls c); [discriminate|reflexivity].
Qed.

(** [re.search] returns the leftmost match: the text before it holds no
    place where the pattern matches. *)
Lemma re_search_sound lit cls s m :
  re_search lit cls s = Some m ->
  exists pre g rest : string,
    s = (pre ++ lit ++ g ++ rest)%string /\
    groups m = [(lit ++ g)%string; g] /\
    g <> "" /\
    string_forall cls g = true /\
    char_is cls (first_char rest) = false /\
    forall (p : string) (c : ascii) (r : string),
      s = (p ++ lit ++ String c r)%string ->
      (String.length p < String.length pre)%nat ->
      cls c = false.
Proof.
  induction s as [|a s IH].
  - cbn [re_search].
    destruct (match_here lit cls "") as [m'|] eqn:E; [|discriminate].
    intros H; inversion H; subst m'; clear H.
    destruct (match_here_sound _ _ _ _ E) as (g & rest & Es & Hg & Hne & Hf & Hr).
    exists "", g, rest; repeat split; try assumption.
    intros p c r _ Hlt; simpl in Hlt; lia.
  - cbn [re_search].
    destruct (match_here lit cls (String a s)) as [m'|] eqn:E.
    + intros H; inversion H; subst m'; clear H.
      destruct (match_here_sound _ _ _ _ E)
        as (g & rest & Es & Hg & Hne & Hf & Hr).
      exists "", g, rest; repeat split; try assumption.
      intros p c r _ Hlt; simpl in Hlt; lia.
    + intros H.
      destruct (IH H) as (pre & g & rest & Es & Hg & Hne & Hf & Hr & Hleft).
      exists (String a pre), g, rest.
      split; [simpl; now rewrite <- Es|].
      repeat split; try assumption.
      intros p c r Ep Hlt.
      destruct p as [|b p].
      * simpl in Ep; rewrite Ep in E.
        now apply (match_here_digit lit cls c r).
      * simpl in Ep; inversion Ep; subst b.
        apply (Hleft p c r); [assumption|simpl in Hlt; lia].
Qed.

Lemma re_search_none lit cls s :
  re_search lit cls s = None ->
  forall (p : string) (c : ascii) (r : string),
    s = (p ++ lit ++ String c r)%string -> cls c = false.
Proof.
  intros H p; revert s H; induction p as [|b p IH]; intros s H c r Es.
  - destruct s as [|a s]; cbn [re_search] in H;
      destruct (match_here lit cls _) eqn:E in H; try discriminate;
      simpl in Es; rewrite Es in E;
      now apply (match_here_digit lit cls c r).
  - destruct s as [|a s]; [discriminate|].
    simpl in Es; inversion Es; subst a.
    cbn [re_search] in H.
    destruct (match_here lit cls (String b s)); [discriminate|].
    now apply (IH s H c r).
Qed.

(** X7. The code [extract_error_info] returns is the integer 0 exactly when
    the text has no "error code: " directly followed by a digit.  Otherwise
    it is a string: the longest run of digits that follows the leftmost such
    "error code: ". *)
Theorem extract_error_info_code (err : string) (code : pyval)
    (message : string) :
  extract_error_info err = Ok (code, message) ->
  (code = PyInt 0 /\
   forall (p : string) (c : ascii) (r : string),
     err = (p ++ "error code: " ++ String c r)%string -> is_digit c = false)
  \/
  (exists pre g rest : string,
      code = PyStr g /\
      err = (pre ++ "error code: " ++ g ++ rest)%string /\
      g <> "" /\
      string_forall is_digit g = true /\
      char_is is_digit (first_char rest) = false /\
      forall (p : string) (c : ascii) (r : string),
        err = (p ++ "error code: " ++ String c r)%string ->
        (String.length p < String.length pre)%nat ->
        is_digit c = false).
Proof.
  rewrite extract_error_info_total; intros H; inversion H; subst; clear H.
  unfold extracted_code.
  destruct (re_search "error code: " is_digit err) as [m|] eqn:E.
  - right.
    destruct (re_search_sound _ _ _ _ E)
      as (pre & g & rest & Es & Hg & Hne & Hf & Hr & Hleft).
    exists pre, g, rest; rewrite Hg; cbn [nth].
    repeat split; assumption.
  - left; split; [reflexivity|].
    now apply re_search_none.
Qed.

Lemma extract_error_info_code_witness :
  exists pre g rest : string,
    PyStr "404" = PyStr g /\
    "rc error code: 404; error code: 5"
    = (pre ++ "error code: " ++ g ++ rest)%string.
Proof.
  destruct (extract_error_info_code "rc error code: 404; error code: 5"
              (PyStr "404") "" eq_refl)
    as [[H _]|(pre & g & rest & Hc & Es & _)]; [discriminate H|].
  exists pre, g, rest; split; assumption.
Defined.

(** X8. The message [extract_error_info] returns is empty when the text has
    no "details: " directly followed by a character other than a line feed.
    Otherwise it is made from the rest of the line after the leftmost such
    "details: ": every "[PilotException(" is deleted, then the blanks
    around are stripped. *)
Theorem extract_error_info_message (err : string) (code : pyval)
    (message : string) :
  extract_error_info err = Ok (code, message) ->
  (message = "" /\
   forall (p : string) (c : ascii) (r : string),
     err = (p ++ "details: " ++ String c r)%string -> not_newline c = false)
  \/
  (exists pre g rest : string,
      message = strip (replace "[PilotException(" "" g) /\
      err = (pre ++ "details: " ++ g ++ rest)%string /\
      g <> "" /\
      string_forall not_newline g = true /\
      char_is not_newline (first_char rest) = false /\
      forall (p : string) (c : ascii) (r : string),
        err = (p ++ "details: " ++ String c r)%string ->
        (String.length p < String.length pre)%nat ->
        not_newline c = false).
Proof.
  rewrite extract_error_info_total; intros H; inversion H; subst; clear H.
  unfold extracted_message.
  destruct (re_search "details: " not_newline err) as [m|] eqn:E.
  - right.
    destruct (re_search_sound _ _ _ _ E)
      as (pre & g & rest & Es & Hg & Hne & Hf & Hr & Hleft).
    exists pre, g, rest; rewrite Hg; cbn [nth].
    unfold remove_all, replace; rewrite remove_all_from_is_replace.
    repeat split; assumption.
  - left; split; [reflexivity|].
    now apply re_search_none.
Qed.

Lemma extract_error_info_message_witness :
  exists pre g rest : string,
    "no replica" = strip (replace "[PilotException(" "" g) /\
    "failed, details:  [PilotException(no replica"
    = (pre ++ "details: " ++ g ++ rest)%string.
Proof.
  destruct (extract_error_info_message
              "failed, details:  [PilotException(no replica"
              (PyInt 0) "no replica" eq_refl)
    as [[H _]|(pre & g & rest & Hm & Es & _)]; [discriminate H|].
  exists pre, g, rest; split; assumption.
Defined.

Section Characters.
Variable p : ascii -> bool.

Lemma remove_all_from_forall (old : string) (k : nat) (s : string) :
  string_forall p s = true ->
  string_forall p (remove_all_from old k s) = true.
Proof.
  revert k; induction s as [|c s IH]; intros k; [reflexivity|].
  cbn [string_forall remove_all_from]; intros H.
  apply andb_prop in H as [Hc Hs].
  destruct k; [|now apply IH].
  destruct (strip_prefix old (String c s)); [now apply IH|].
  cbn [string_forall]; now rewrite Hc, IH.
Qed.

Lemma lstrip_with_forall (sp : ascii -> bool) (s : string) :
  string_forall p s = true -> string_forall p (lstrip_with sp s) = true.
Proof.
  induction s as [|c s IH]; [reflexivity|].
  cbn [lstrip_with]; destruct (sp c); [|intros H; exact H].
  cbn [string_forall]; intros H; apply andb_prop in H as [_ Hs].
  now apply IH.
Qed.

Lemma rstrip_with_forall (sp : ascii -> bool) (s : string) :
  string_forall p s = true -> string_forall p (rstrip_with sp s) = true.
Proof.
  induction s as [|c s IH]; [reflexivity|].
  cbn [string_forall rstrip_with]; intros H.
  apply andb_prop in H as [Hc Hs].
  destruct (sp c && String.eqb (rstrip_with sp s) ""); [reflexivity|].
  cbn [string_forall]; now rewrite Hc, IH.
Qed.
End Characters.

Lemma lstrip_with_first (sp : ascii -> bool) (s : string) :
  char_is sp (first_char (lstrip_with sp s)) = false.
Proof.
  induction s as [|c s IH]; [reflexivity|].
  cbn [lstrip_with]; destruct (sp c) eqn:E; [exact IH|exact E].
Qed.

Lemma rstrip_with_first (sp : ascii -> bool) (s : string) :
  char_is sp (first_char s) = false ->
  char_is sp (first_char (rstrip_with sp s)) = false.
Proof.
  destruct s as [|c s]; [intros H; exact H|].
  cbn [first_char char_is rstrip_with]; intros H; rewrite H.
  exact H.
Qed.

Lemma last_char_none (s : string) : last_char s = None -> s = "".
Proof.
  destruct s as [|c s]; [reflexivity|].
  cbn [last_char]; destruct (last_char s); discriminate.
Qed.

Lemma rstrip_with_last (sp : ascii -> bool) (s : string) :
  char_is sp (last_char (rstrip_with sp s)) = false.
Proof.
  induction s as [|c s IH]; [reflexivity|].
  cbn [rstrip_with].
  destruct (sp c && String.eqb (rstrip_with sp s) "") eqn:E; [reflexivity|].
  cbn [last_char].
  destruct (last_char (rstrip_with sp s)) as [d|] eqn:El; [exact IH|].
  apply last_char_none in El; rewrite El in E.
  cbn [char_is]; now rewrite andb_true_r in E.
Qed.

(** X9. The message [extract_error_info] returns is on one line and has no
    blank at either end. *)
Theorem extract_error_info_message_trimmed (err : string) (code : pyval)
    (message : string) :
  extract_error_info err = Ok (code, message) ->
  string_forall not_newline message = true /\
  char_is is_space (first_char message) = false /\
  char_is is_space (last_char message) = false.
Proof.
  rewrite extract_error_info_total; intros H; inversion H; subst; clear H.
  unfold extracted_message.
  destruct (re_search "details: " not_newline err) as [m|] eqn:E;
    [|repeat split].
  destruct (re_search_sound _ _ _ _ E) as (pre & g & rest & _ & Hg & _ & Hf & _).
  rewrite Hg; cbn [nth]; unfold strip, strip_with, remove_all.
  split; [|split].
  - now apply rstrip_with_forall, lstrip_with_forall, remove_all_from_forall.
  - apply rstrip_with_first, lstrip_with_first.
  - apply rstrip_with_last.
Qed.

Lemma extract_error_info_message_trimmed_witness :
  string_forall not_newline "disk full" = true /\
  char_is is_space (first_char "disk full") = false /\
  char_is is_space (last_char "disk full") = false.
Proof.
  apply (extract_error_info_message_trimmed
           "stage-in failed, details:   disk full  " (PyInt 0) "disk full").
  reflexivity.
Defined.

(** ** The transfer call and the log of a run *)

(** X10. A run consults the backend through one call only: the client and
    the activity chosen by the event-service flag, the descriptors built
    from the arguments, and the fixed options ([cwd] is the working
    directory, no container, no bulk transfer).  Two backends that agree on
    this call, under the same report file name, give the same run. *)
Theorem run_depends_on_one_call (args : Args.t) (env1 env2 : Env) :
  stagein_dictionary env1 = stagein_dictionary env2 ->
  (let c := if Args.eventservicemerge args
            then StageInESClient else StageInClient in
   let activity := if Args.eventservicemerge args
                   then "es_events_read" else "pr" in
   let kwargs := mkKwargs (Args.workdir args) (Args.workdir args) false
                   (Args.usepcache args) false in
   transfer env1 c (built args) activity kwargs
   = transfer env2 c (built args) activity kwargs) ->
  run args env1 = run args env2.
Proof.
  intros Hname Hcall; cbv zeta in Hcall.
  assert (E : transfer_call args env1 = transfer_call args env2).
  { unfold transfer_call; destruct (Args.eventservicemerge args); exact Hcall. }
  rewrite !run_eq.
  unfold exit_code_of, main_log, report_of, report_path.
  now rewrite E, Hname.
Qed.

Lemma run_depends_on_one_call_witness :
  run (sample_args "f1,f2" "s,s")
    (mkEnv "stagein_dictionary.json"
       (fun c xfiles _ _ =>
          match c with
          | StageInClient => (xfiles, Raised "standard client down")
          | StageInESClient => (xfiles, Returned PyNone)
          end))
  = run (sample_args "f1,f2" "s,s") (failing_env "standard client down").
Proof.
  apply run_depends_on_one_call; reflexivity.
Defined.

Lemma in_main_log (x : msg) (args : Args.t) (env : Env) :
  In x (main_log args env) <->
  In x (caught_log (all_fields args))
  \/ In x (log_lists (reconciled_args args))
  \/ In x (mismatch_log (reconciled_args args))
  \/ In x (files_log (Args.workdir args) (reconciled_args args))
  \/ In x (dispatch_log (snd (transfer_call args env)))
  \/ In x (summary_log (fst (transfer_call args env)))
  \/ In x (final_log (fst (global_error (snd (transfer_call args env))))
             (report_path args env)).
Proof. unfold main_log; rewrite !in_app_iff; tauto. Qed.

(** The parts of the log that hold lines of a few kinds only. *)
Lemma in_caught_log x fields :
  In x (caught_log fields) -> exists e, x = MsgExceptionCaught e.
Proof.
  unfold caught_log; destruct (forallb present fields); simpl; [tauto|].
  intros [<-|[]]; eauto.
Qed.

Lemma in_log_lists x l :
  In x (log_lists l) -> exists name values, x = MsgList name values.
Proof.
  unfold log_lists; simpl; intros H.
  repeat (destruct H as [<-|H]; [eauto|]); destruct H.
Qed.

Lemma in_mismatch_log x l :
  In x (mismatch_log l) -> exists n m, x = MsgNotSameLength n m.
Proof.
  unfold mismatch_log; destruct (negb _); simpl; [|tauto].
  intros [<-|[]]; eauto.
Qed.

Lemma in_files_log x wd l :
  In x (files_log wd l) -> exists files, x = MsgFiles files.
Proof.
  unfold files_log; rewrite in_map_iff; intros (t & <- & _); eauto.
Qed.

Lemma in_summary_log x xfiles :
  In x (summary_log xfiles) ->
  x = MsgSummary \/ exists n c s, x = MsgFileStatus n c s.
Proof.
  unfold summary_log; destruct xfiles as [|f xs]; [intros []|].
  intros [<-|H]; [now left|right].
  apply in_map_iff in H as (g & <- & _); unfold status_line; eauto.
Qed.

Lemma in_dispatch_log x o :
  In x (dispatch_log o) <-> exists m, o = Raised m /\ x = MsgTransferError m.
Proof.
  destruct o as [r|m]; simpl; split.
  - intros [].
  - intros (m & H & _); discriminate H.
  - intros [<-|[]]; eauto.
  - intros (m' & H & ->); inversion H; now left.
Qed.

Lemma in_final_log x err path :
  In x (final_log err path) ->
  (err <> "" /\ x = MsgTransfersFailed err)
  \/ (err = "" /\ (x = MsgWrote path \/ x = MsgFinished)).
Proof.
  unfold final_log; destruct (String.eqb_spec err "") as [E|E]; simpl.
  - intros [<-|[<-|[]]]; right; tauto.
  - intros [<-|[]]; left; tauto.
Qed.

(** X15. The raw message of a failed transfer call is always logged, and
    only then: the log of a run has the line of the transfer error with
    message [m] exactly when the call raised with [m], also when the error
    extraction leaves nothing of [m] and the run exits with code 0. *)
Theorem transfer_failure_always_logged (args : Args.t) (env : Env)
    (m : string) :
  In (MsgTransferError m) (log (snd (run args env)))
  <-> snd (transfer_call args env) = Raised m.
Proof.
  rewrite run_eq; cbn [snd log]; rewrite in_main_log; split.
  - intros [H|[H|[H|[H|[H|[H|H]]]]]].
    + apply in_caught_log in H as (e & H); discriminate H.
    + apply in_log_lists in H as (n & v & H); discriminate H.
    + apply in_mismatch_log in H as (n & k & H); discriminate H.
    + apply in_files_log in H as (f & H); discriminate H.
    + apply in_dispatch_log in H as (m' & Ho & H); inversion H; now subst.
    + apply in_summary_log in H as [H|(n & c & s & H)]; discriminate H.
    + apply in_final_log in H as [[_ H]|[_ [H|H]]]; discriminate H.
  - intros H; do 4 right; left.
    apply in_dispatch_log; eauto.
Qed.

Lemma transfer_failure_always_logged_witness :
  In (MsgTransferError "copy command failed")
    (log (snd (run (sample_args "f1,f2" "s,s")
                 (failing_env "copy command failed")))) /\
  exit_code (run (sample_args "f1,f2" "s,s")
               (failing_env "copy command failed")) = Some 0%Z.
Proof.
  split; [|reflexivity].
  apply (proj2 (transfer_failure_always_logged (sample_args "f1,f2" "s,s")
                  (failing_env "copy command failed")
                  "copy command failed")).
  reflexivity.
Defined.

(** X14. The line that names the report file is logged exactly by the runs
    that exit with code 0, whose log ends with it and the closing line.  A
    run that exits with code 12 has written the report as well, but its log
    ends with the failure line, which carries the message stored in the
    report, and never names the file. *)
Theorem log_ends_with_verdict (args : Args.t) (env : Env) :
  (forall path : string,
      In (MsgWrote path) (log (snd (run args env)))
      <-> exit_code (run args env) = Some 0%Z /\ path = report_path args env) /\
  (exit_code (run args env) = Some 0%Z ->
   exists earlier : list msg,
     log (snd (run args env))
     = earlier ++ [MsgWrote (report_path args env); MsgFinished]) /\
  (exit_code (run args env) = Some 12%Z ->
   exists (earlier : list msg) (err : string) (errcode : pyval),
     log (snd (run args env)) = earlier ++ [MsgTransfersFailed err] /\
     written (snd (run args env))
     = [(report_path args env, report_of args env)] /\
     dict_get (report_of args env) "error"
     = Some [PyStr err; errcode; PyNone]).
Proof.
  rewrite exit_code_run, written_run, run_eq; cbn [snd log].
  unfold exit_code_of, TRANSFER_ERROR.
  set (err := fst (global_error (snd (transfer_call args env)))).
  split; [|split].
  - intros path; rewrite in_main_log; split.
    + intros [H|[H|[H|[H|[H|[H|H]]]]]].
      * apply in_caught_log in H as (e & H); discriminate H.
      * apply in_log_lists in H as (n & v & H); discriminate H.
      * apply in_mismatch_log in H as (n & k & H); discriminate H.
      * apply in_files_log in H as (f & H); discriminate H.
      * apply in_dispatch_log in H as (m' & Ho & H); discriminate H.
      * apply in_summary_log in H as [H|(n & c & s & H)]; discriminate H.
      * apply in_final_log in H as [[_ H]|[E [H|H]]]; try discriminate H.
        fold err in E; rewrite E; inversion H; split; reflexivity.
    + intros [H ->]; do 6 right; fold err; unfold final_log.
      destruct (negb (String.eqb err "")); [discriminate H|now left].
  - intros H; unfold main_log; fold err; unfold final_log.
    destruct (negb (String.eqb err "")); [discriminate H|].
    rewrite !app_assoc; eexists; reflexivity.
  - intros H; unfold main_log; fold err; unfold final_log.
    destruct (negb (String.eqb err "")); [|discriminate H].
    rewrite !app_assoc; eexists _, err, _.
    split; [reflexivity|split; [reflexivity|apply report_of_error]].
Qed.

Lemma log_ends_with_verdict_witness :
  exists earlier : list msg,
    log (snd (run (sample_args "f1,f2" "s,s") done_env))
    = earlier ++ [MsgWrote "/srv/job/stagein_dictionary.json"; MsgFinished].
Proof.
  apply (proj1 (proj2 (log_ends_with_verdict (sample_args "f1,f2" "s,s")
                         done_env))).
  reflexivity.
Defined.

(** ** The shape of the report *)

Lemma str_in_iff (k : string) (l : list string) : str_in k l = true <-> In k l.
Proof.
  unfold str_in; rewrite existsb_exists; split.
  - intros (x & Hin & E); apply String.eqb_eq in E; now subst.
  - intros H; exists k; split; [exact H|apply String.eqb_refl].
Qed.

Lemma keys_dict_set {V} (d : dict V) (k : string) (v : V) :
  keys (dict_set d k v) = if str_in k (keys d) then keys d else keys d ++ [k].
Proof.
  induction d as [|[k0 v0] d IH]; [reflexivity|].
  cbn [dict_set keys map fst str_in existsb] in *.
  rewrite (String.eqb_sym k k0).
  destruct (String.eqb k0 k); cbn [orb map fst]; [reflexivity|].
  fold (keys (dict_set d k v)); fold (keys d); rewrite IH.
  fold (str_in k (keys d)).
  now destruct (str_in k (keys d)).
Qed.

Lemma dict_get_add_to_dictionary (d : report) (k k' : string)
    (a b c : pyval) :
  dict_get (add_to_dictionary d k a b c) k'
  = if String.eqb k' k then Some [a; b; c] else dict_get d k'.
Proof.
  unfold add_to_dictionary.
  destruct (String.eqb_spec k' k) as [->|Hne].
  - apply dict_get_set_same.
  - now apply dict_get_set_other.
Qed.

(** X18. After [add_to_dictionary] the key maps to the three values, every
    other key maps to what it did before, and the keys keep their order: a
    key that was present stays where it is, a new key goes to the end. *)
Theorem add_to_dictionary_lookup (d : report) (k k' : string)
    (a b c : pyval) :
  dict_get (add_to_dictionary d k a b c) k'
  = (if String.eqb k' k then Some [a; b; c] else dict_get d k') /\
  keys (add_to_dictionary d k a b c)
  = (if str_in k (keys d) then keys d else keys d ++ [k]) /\
  (NoDup (keys d) -> NoDup (keys (add_to_dictionary d k a b c))).
Proof.
  split; [apply dict_get_add_to_dictionary|].
  split; [apply keys_dict_set|apply keys_set_NoDup].
Qed.

Lemma add_to_dictionary_lookup_witness :
  NoDup (keys (add_to_dictionary [("f1", [PyNone; PyNone; PyNone])] "f1"
                 (PyStr "transferred") (PyInt 0) (PyStr "turl"))).
Proof.
  apply (proj2 (proj2 (add_to_dictionary_lookup
                         [("f1", [PyNone; PyNone; PyNone])] "f1" "f1"
                         (PyStr "transferred") (PyInt 0) (PyStr "turl")))).
  repeat constructor; intros [].
Defined.

Lemma keys_aggregate (xfiles : list FileSpec) (d : report) :
  keys (aggregate xfiles d)
  = fold_left (fun seen k => if str_in k seen then seen else seen ++ [k])
      (map (fun f => lfn (fields f)) xfiles) (keys d).
Proof.
  unfold aggregate; revert d; induction xfiles as [|f xs IH]; intros d;
    [reflexivity|].
  cbn [fold_left map]; rewrite IH.
  unfold add_to_dictionary; now rewrite keys_dict_set.
Qed.

Lemma seen_NoDup (l seen : list string) :
  NoDup seen ->
  NoDup (fold_left (fun seen k => if str_in k seen then seen else seen ++ [k])
           l seen).
Proof.
  revert seen; induction l as [|k l IH]; intros seen H; [exact H|].
  cbn [fold_left]; apply IH.
  destruct (str_in k seen) eqn:E; [exact H|].
  apply NoDup_app; [exact H|repeat constructor; intros []|].
  intros x Hx [<-|[]].
  apply str_in_iff in Hx; congruence.
Qed.

Lemma seen_In (l seen : list string) (x : string) :
  In x (fold_left (fun seen k => if str_in k seen then seen else seen ++ [k])
          l seen)
  <-> In x seen \/ In x l.
Proof.
  revert seen; induction l as [|k l IH]; intros seen; cbn [fold_left In].
  - tauto.
  - rewrite IH.
    destruct (str_in k seen) eqn:E.
    + apply str_in_iff in E; split; [tauto|].
      intros [H|[<-|H]]; tauto.
    + rewrite in_app_iff; cbn [In]; tauto.
Qed.

Lemma seen_fresh (l seen : list string) :
  NoDup (seen ++ l) ->
  fold_left (fun seen k => if str_in k seen then seen else seen ++ [k]) l seen
  = seen ++ l.
Proof.
  revert seen; induction l as [|k l IH]; intros seen H; cbn [fold_left].
  - now rewrite app_nil_r.
  - assert (E : str_in k seen = false).
    { destruct (str_in k seen) eqn:E; [|reflexivity].
      apply str_in_iff in E.
      apply NoDup_remove_2 in H; elim H; apply in_or_app; now left. }
    rewrite E, IH, <- app_assoc; [reflexivity|].
    now rewrite <- app_assoc.
Qed.

(** X11. The keys of the report are the logical names of the descriptors,
    as the backend left them, followed by "error", each once, in the order
    of their first occurrence. *)
Theorem report_keys_in_order (args : Args.t) (env : Env) :
  let names :=
    map (fun f => lfn (fields f)) (fst (transfer_call args env)) ++ ["error"] in
  exists rep : report,
    written (snd (run args env)) = [(report_path args env, rep)] /\
    keys rep = first_occurrences names /\
    NoDup (first_occurrences names) /\
    (forall x : string, In x (first_occurrences names) <-> In x names) /\
    (NoDup names -> first_occurrences names = names).
Proof.
  intros names; exists (report_of args env).
  split; [apply written_run|].
  split; [|split; [|split]].
  - unfold report_of, names, first_occurrences.
    destruct (transfer_call args env) as [xs o]; cbn [fst].
    unfold add_to_dictionary at 1.
    rewrite keys_dict_set, keys_aggregate, fold_left_app; reflexivity.
  - apply seen_NoDup; constructor.
  - intros x; unfold first_occurrences; rewrite seen_In; cbn [In]; tauto.
  - intros H; unfold first_occurrences; now rewrite seen_fresh.
Qed.

Lemma report_keys_in_order_witness :
  first_occurrences ["f1"; "f2"; "error"] = ["f1"; "f2"; "error"].
Proof.
  destruct (report_keys_in_order (sample_args "f1,f2" "s,s") done_env)
    as (rep & _ & _ & _ & _ & H).
  apply H.
  repeat constructor; simpl; intuition discriminate.
Defined.

Lemma dict_set_fresh {V} (d : dict V) (k : string) (v : V) :
  ~ In k (keys d) -> dict_set d k v = d ++ [(k, v)].
Proof.
  induction d as [|[k0 v0] d IH]; [reflexivity|].
  cbn [dict_set keys map fst In app]; intros H.
  destruct (String.eqb_spec k0 k) as [->|_]; [elim H; now left|].
  rewrite IH; [reflexivity|].
  intros Hin; apply H; now right.
Qed.

Lemma aggregate_fresh (xfiles : list FileSpec) (d : report) :
  NoDup (keys d ++ map (fun f => lfn (fields f)) xfiles) ->
  aggregate xfiles d = d ++ map entry_of xfiles.
Proof.
  revert d; induction xfiles as [|f xs IH]; intros d H.
  - cbn; now rewrite app_nil_r.
  - change (aggregate (f :: xs) d)
      with (aggregate xs
              (add_to_dictionary d (lfn (fields f)) (status f)
                 (status_code f) (turl f))).
    unfold add_to_dictionary.
    cbn [map] in H.
    rewrite dict_set_fresh.
    + rewrite IH; [now rewrite <- app_assoc|].
      unfold keys in *; rewrite map_app, <- app_assoc; exact H.
    + apply NoDup_remove_2 in H.
      intros Hin; apply H, in_or_app; now left.
Qed.

(** X12. When the descriptors, as the backend left them, have distinct
    logical names and none is named "error", the report lists them in their
    order, each with its own status, status code and turl, and ends with the
    "error" entry. *)
Theorem report_lists_descriptors (args : Args.t) (env : Env) :
  let xfiles := fst (transfer_call args env) in
  let e := global_error (snd (transfer_call args env)) in
  NoDup (map (fun f => lfn (fields f)) xfiles ++ ["error"]) ->
  written (snd (run args env))
  = [(report_path args env,
      map (fun f => (lfn (fields f), [status f; status_code f; turl f]))
        xfiles
      ++ [("error", [PyStr (fst e); snd e; PyNone])])].
Proof.
  intros xfiles e H; rewrite written_run; unfold report_of, xfiles, e in *.
  destruct (transfer_call args env) as [xs o]; cbn [fst snd] in *.
  unfold add_to_dictionary at 1.
  rewrite (aggregate_fresh xs []).
  - cbn [app]; rewrite dict_set_fresh; [reflexivity|].
    apply NoDup_remove_2 in H; rewrite app_nil_r in H.
    unfold keys; rewrite map_map; exact H.
  - cbn [keys map app]; now apply NoDup_app_remove_r in H.
Qed.

Lemma report_lists_descriptors_witness :
  written (snd (run (sample_args "f1,f2" "s1,s2") done_env))
  = [("/srv/job/stagein_dictionary.json",
      [("f1", [PyStr "transferred"; PyInt 0; PyStr "g1"]);
       ("f2", [PyStr "transferred"; PyInt 0; PyStr "g2"]);
       ("error", [PyStr ""; PyInt 0; PyNone])])].
Proof.
  apply (report_lists_descriptors (sample_args "f1,f2" "s1,s2") done_env).
  repeat constructor; simpl; intuition discriminate.
Defined.

(** X13. The code -1 that the script notes when the transfer call raises
    reaches the report only when the call raised with an empty message; the
    message of the entry is then empty and the run exits with code 0.  For
    every other message the code of the entry is what the error extraction
    found: the integer 0 or a string of digits. *)
Theorem sentinel_only_for_empty_message (args : Args.t) (env : Env) :
  exists (err : string) (errcode : pyval),
    dict_get (report_of args env) "error" = Some [PyStr err; errcode; PyNone] /\
    written (snd (run args env))
    = [(report_path args env, report_of args env)] /\
    (errcode = PyInt (-1) <-> snd (transfer_call args env) = Raised "") /\
    (errcode = PyInt (-1) ->
     err = "" /\ exit_code (run args env) = Some 0%Z) /\
    (forall m : string,
        snd (transfer_call args env) = Raised m -> m <> "" ->
        errcode = PyInt 0
        \/ exists g : string,
             errcode = PyStr g /\ g <> "" /\ string_forall is_digit g = true).
Proof.
  exists (fst (global_error (snd (transfer_call args env)))),
    (snd (global_error (snd (transfer_call args env)))).
  split; [apply report_of_error|].
  split; [apply written_run|].
  rewrite exit_code_run; unfold exit_code_of.
  assert (Hcode : forall m, extracted_code m = PyInt 0
                            \/ exists g, extracted_code m = PyStr g /\ g <> ""
                                         /\ string_forall is_digit g = true).
  { intros m; unfold extracted_code.
    destruct (re_search "error code: " is_digit m) as [mo|] eqn:E;
      [right|now left].
    destruct (re_search_sound _ _ _ _ E) as (pre & g & rest & _ & Hg & Hne & Hf & _).
    exists g; rewrite Hg; cbn [nth]; repeat split; assumption. }
  destruct (snd (transfer_call args env)) as [r|m].
  - cbn; split; [split; discriminate|].
    split; [discriminate|intros m H; discriminate H].
  - rewrite global_error_raised.
    destruct (String.eqb_spec m "") as [->|Hm]; cbn [negb fst snd].
    + split; [split; reflexivity|].
      split; [intros _; split; reflexivity|].
      intros m' E H; inversion E; subst m'; now elim H.
    + split; [split|split].
      * intros H; destruct (Hcode m) as [E|(g & E & _)]; rewrite E in H;
          discriminate H.
      * intros H; inversion H; now elim Hm.
      * intros H; destruct (Hcode m) as [E|(g & E & _)]; rewrite E in H;
          discriminate H.
      * intros m' H _; inversion H; subst m'; apply Hcode.
Qed.

Lemma sentinel_only_for_empty_message_witness :
  dict_get (report_of (sample_args "f1,f2" "s,s") (failing_env "")) "error"
  = Some [PyStr ""; PyInt (-1); PyNone].
Proof.
  destruct (sentinel_only_for_empty_message (sample_args "f1,f2" "s,s")
              (failing_env ""))
    as (err & errcode & Hget & _ & Hiff & Himp & _).
  rewrite Hget.
  assert (Hc : errcode = PyInt (-1)) by (apply Hiff; reflexivity).
  destruct (Himp Hc) as [-> _]; now rewrite Hc.
Defined.

(** ** What the reconciler makes of arguments that are all strings *)

Lemma length_split_comma (s : string) :
  List.length (split_comma s) = S (count_commas s).
Proof.
  induction s as [|c s IH]; [reflexivity|].
  cbn [split_comma count_commas].
  destruct (Ascii.eqb c ","); cbn [List.length]; [now rewrite IH|].
  destruct (split_comma s); [discriminate IH|exact IH].
Qed.

Lemma concat_split_comma (s : string) :
  String.concat "," (split_comma s) = s.
Proof.
  induction s as [|c s IH]; [reflexivity|].
  cbn [split_comma].
  destruct (Ascii.eqb_spec c ",") as [->|_].
  - pose proof (length_split_comma s) as Hl.
    destruct (split_comma s) as [|h t]; [discriminate Hl|].
    cbn [String.concat] in *; now rewrite IH.
  - pose proof (length_split_comma s) as Hl.
    destruct (split_comma s) as [|h t]; [discriminate Hl|].
    destruct t as [|h' t]; cbn [String.concat] in *; now rewrite <- IH.
Qed.

Lemma length_str_to_bool_list (l : list pyval) :
  List.length (str_to_bool_list l) = List.length l.
Proof. unfold str_to_bool_list; apply length_map. Qed.

Lemma shortest_le (l : FileLists) (n : nat) :
  In n (lengths l) -> (shortest l <= n)%nat.
Proof.
  unfold lengths, shortest; cbn [In]; intros H.
  repeat (destruct H as [<-|H]; [lia|]); destruct H.
Qed.

Lemma shortest_ge (l : FileLists) (k : nat) :
  (forall n, In n (lengths l) -> (k <= n)%nat) -> (k <= shortest l)%nat.
Proof.
  unfold lengths, shortest; cbn [In]; intros H.
  repeat apply Nat.min_glb; apply H; tauto.
Qed.

(** X16. When the twelve arguments are strings, every list has one element
    more than its argument has commas, so none is empty, and at least one
    descriptor is built, also from empty strings; their number is the
    length of the shortest list. *)
Theorem strings_give_descriptors (wd s1 s2 s3 s4 s5 s6 s7 s8 s9 s10 s11 s12
    : string) (esm pcache : bool) :
  let args := Args.mk wd (Some s1) (Some s2) (Some s3) (Some s4) (Some s5)
                (Some s6) (Some s7) (Some s8) (Some s9) (Some s10)
                (Some s11) (Some s12) esm pcache in
  lengths (reconciled_args args)
  = map (fun s => S (count_commas s))
      [s1; s2; s3; s4; s5; s6; s7; s8; s9; s10; s11; s12] /\
  (1 <= List.length (built args))%nat /\
  List.length (built args) = shortest (reconciled_args args) /\
  (forall n : nat,
      In n (lengths (reconciled_args args)) ->
      (List.length (built args) <= n)%nat).
Proof.
  intros args.
  assert (E : lengths (reconciled_args args)
              = map (fun s => S (count_commas s))
                  [s1; s2; s3; s4; s5; s6; s7; s8; s9; s10; s11; s12]).
  { unfold lengths, reconciled_args, reconciled, args, kept;
      cbn [forallb present andb pieces map Args.lfns Args.scopes
           Args.filesizes Args.checksums Args.allowlans Args.allowwans
           Args.directaccesslans Args.directaccesswans Args.istars
           Args.accessmodes Args.storagetokens Args.guids _lfns _scopes
           _filesizes _checksums _allowlans _allowwans _directaccesslans
           _directaccesswans _istars _accessmodes _storagetokens _guids].
    now rewrite !length_str_to_bool_list, !length_map, !length_split_comma. }
  assert (L : List.length (built args) = shortest (reconciled_args args))
    by apply descriptors_length.
  split; [exact E|].
  split; [|split; [exact L|]].
  - rewrite L; apply shortest_ge; intros n Hn.
    rewrite E in Hn; apply in_map_iff in Hn as (s & <- & _); lia.
  - intros n Hn; rewrite L; now apply shortest_le.
Qed.

Example empty_strings_give_one_descriptor :
  built (Args.mk "/srv/job" (Some "") (Some "") (Some "") (Some "") (Some "")
           (Some "") (Some "") (Some "") (Some "") (Some "") (Some "")
           (Some "") false false)
  = [mkFileSpec "input"
       (mkFileDict "" "" "/srv/job" PyNone "" (PyStr "") (PyStr "")
          (PyStr "") "" (PyStr "") (PyStr "") "" "")
       PyNone PyNone PyNone].
Proof. reflexivity. Qed.

(** X17. Nothing of a string argument is lost in the reconciler: the
    returned names, scopes, checksums, access modes, storage tokens and
    guids, joined with commas, are the arguments again. *)
Theorem get_file_lists_join (s1 s2 s3 s4 s5 s6 s7 s8 s9 s10 s11 s12 : string)
    (w : World) :
  exists (lists : FileLists) (w' : World),
    get_file_lists (Some s1) (Some s2) (Some s3) (Some s4) (Some s5)
      (Some s6) (Some s7) (Some s8) (Some s9) (Some s10) (Some s11)
      (Some s12) w = (Ok lists, w') /\
    String.concat "," (_lfns lists) = s1 /\
    String.concat "," (_scopes lists) = s2 /\
    String.concat "," (_checksums lists) = s4 /\
    String.concat "," (_accessmodes lists) = s10 /\
    String.concat "," (_storagetokens lists) = s11 /\
    String.concat "," (_guids lists) = s12.
Proof.
  eexists _, _; split; [apply get_file_lists_eq|].
  unfold reconciled, kept;
    cbn [forallb present andb pieces _lfns _scopes _checksums _accessmodes
         _storagetokens _guids].
  repeat split; apply concat_split_comma.
Qed.

Lemma filter_none {A} (p : A -> bool) (l : list A) :
  (forall x, In x l -> p x = false) -> filter p l = [].
Proof.
  induction l as [|a l IH]; intros H; [reflexivity|].
  cbn [filter]; rewrite (H a (or_introl eq_refl)).
  apply IH; intros x Hx; apply H; now right.
Qed.

Lemma filter_all {A} (p : A -> bool) (l : list A) :
  (forall x, In x l -> p x = true) -> filter p l = l.
Proof.
  induction l as [|a l IH]; intros H; [reflexivity|].
  cbn [filter]; rewrite (H a (or_introl eq_refl)), IH; [reflexivity|].
  intros x Hx; apply H; now right.
Qed.

(** X19. The summary has one line per descriptor, in the order of the
    descriptors as the backend left them; a descriptor without a status is
    shown as "(not transferred)".  The heading of the summary is logged
    exactly when there is a descriptor. *)
Theorem summary_lines_follow_descriptors (args : Args.t) (env : Env) :
  filter is_file_status (log (snd (run args env)))
  = map (fun f =>
           MsgFileStatus (lfn (fields f)) (status_code f)
             (if truthy (status f) then status f
              else PyStr "(not transferred)"))
      (fst (transfer_call args env)) /\
  (In MsgSummary (log (snd (run args env)))
   <-> fst (transfer_call args env) <> []).
Proof.
  rewrite run_eq; cbn [snd log]; split.
  - unfold main_log; rewrite !filter_app.
    rewrite (filter_none _ (caught_log _))
      by (intros x H; apply in_caught_log in H as (e & ->); reflexivity).
    rewrite (filter_none _ (log_lists _))
      by (intros x H; apply in_log_lists in H as (n & v & ->); reflexivity).
    rewrite (filter_none _ (mismatch_log _))
      by (intros x H; apply in_mismatch_log in H as (n & k & ->); reflexivity).
    rewrite (filter_none _ (files_log _ _))
      by (intros x H; apply in_files_log in H as (f & ->); reflexivity).
    rewrite (filter_none _ (dispatch_log _))
      by (intros x H; apply in_dispatch_log in H as (m & _ & ->); reflexivity).
    rewrite (filter_none _ (final_log _ _))
      by (intros x H; apply in_final_log in H as [[_ ->]|[_ [->| ->]]];
          reflexivity).
    cbn [app]; rewrite app_nil_r.
    unfold summary_log; destruct (fst (transfer_call args env)) as [|f xs];
      [reflexivity|].
    cbn [filter is_file_status].
    apply filter_all; intros x H.
    apply in_map_iff in H as (g & <- & _); reflexivity.
  - rewrite in_main_log; split.
    + intros [H|[H|[H|[H|[H|[H|H]]]]]].
      * apply in_caught_log in H as (e & H); discriminate H.
      * apply in_log_lists in H as (n & v & H); discriminate H.
      * apply in_mismatch_log in H as (n & k & H); discriminate H.
      * apply in_files_log in H as (f & H); discriminate H.
      * apply in_dispatch_log in H as (m' & Ho & H); discriminate H.
      * destruct (fst (transfer_call args env)); [destruct H|discriminate].
      * apply in_final_log in H as [[_ H]|[_ [H|H]]]; discriminate H.
    + intros H; do 5 right; left.
      destruct (fst (transfer_call args env)); [now elim H|now left].
Qed.

Lemma summary_lines_follow_descriptors_witness :
  In MsgSummary
    (log (snd (run (sample_args "f1,f2" "s,s") (failing_env "boom")))).
Proof.
  apply (proj2 (summary_lines_follow_descriptors (sample_args "f1,f2" "s,s")
                  (failing_env "boom"))).
  vm_compute; intros H; discriminate H.
Defined.
